(** * Cybernetic AR HUD: a shallow embedding of [advanced_cybernetic_hud.py]

    The definitions follow the source file: the Python values the program
    manipulates, the gesture classifier [recognize_gesture], the random
    source, the state of the [CyberneticARHUD] object, the telemetry update
    [update_system_metrics], the progress-bar primitive on pixel images,
    the radar contact bookkeeping inside [draw_radar_display], the other
    widgets, [process_hands], the widget registry and the main loop.  The
    properties come after the definitions, grouped the same way.

    Conventions.
    - A Python [float] is the rational it stands for ([Q]), and comparisons
      of floats are comparisons of rationals.  Where the code truncates a
      product or a quotient of floats (the progress bars), the operation
      is rounded to the nearest double by [double]; elsewhere arithmetic
      on floats is exact.
    - A Python [int] is a [Z]; a position in a list is a [nat].
    - A raised exception is the [Raise] branch of [result].
    - [landmarks[i]] on a list is [getitem], which raises [IndexError] when
      the position is out of range.
    - Readings of the clock and of [psutil] are arguments of the routine
      that takes them; the [random] module is a state threaded through. *)

From Stdlib Require Import ZArith QArith Qround Lia.
From stdpp Require Import base tactics option list strings.

Local Open Scope string_scope.
Local Open Scope list_scope.
Local Open Scope Z_scope.

(** ** Python values *)

Module Py.

Inductive exn : Set :=
| IndexError
| ValueError.

Inductive result (A : Type) : Type :=
| Ok (a : A)
| Raise (e : exn).
Arguments Ok {A} a.
Arguments Raise {A} e.

Definition bind {A B} (m : result A) (k : A -> result B) : result B :=
  match m with
  | Ok a => k a
  | Raise e => Raise e
  end.

(** [seq[i]] for a non-negative position. *)
Definition getitem {A} (l : list A) (i : nat) : result A :=
  match l !! i with
  | Some a => Ok a
  | None => Raise IndexError
  end.

(** [a < b] on floats. *)
Definition Qltb (a b : Q) : bool :=
  (Qnum a * QDen b <? Qnum b * QDen a)%Z.

(** [int(q)]: truncation toward zero. *)
Definition int (q : Q) : Z := Z.quot (Qnum q) (QDen q).

(** *** Rounding to the nearest double

    A double is [m * 2 ^ u] with [m] of at most 53 bits and [u] at least
    -1074.  The result of [*] and [/] on floats is the double nearest the
    exact result, ties going to the even [m].  Overflow to infinity is
    not modelled. *)

(** The integer nearest [a / b], for [0 < b]; a tie goes to the even one. *)
Definition round_half_even (a b : Z) : Z :=
  let q := a / b in
  match 2 * (a mod b) ?= b with
  | Lt => q
  | Gt => q + 1
  | Eq => if Z.even q then q else q + 1
  end.

(** [m * 2 ^ u] *)
Definition scale (m u : Z) : Q :=
  m * 2 ^ Z.max 0 u # Z.to_pos (2 ^ Z.max 0 (- u)).

(** [2 ^ e <= n / d] *)
Definition pow2_le (e : Z) (n d : positive) : bool :=
  Zpos d * 2 ^ Z.max 0 e <=? Zpos n * 2 ^ Z.max 0 (- e).

(** The same test as a proposition, on integers. *)
Definition ple (e : Z) (n d : Z) : Prop :=
  d * 2 ^ Z.max 0 e <= n * 2 ^ Z.max 0 (- e).

(** The binary exponent of [n / d]: the [e] with
    [2 ^ e <= n / d < 2 ^ (e + 1)]. *)
Definition exponent (n d : positive) : Z :=
  let e := Z.log2 (Zpos n) - Z.log2 (Zpos d) in
  if pow2_le e n d then e else e - 1.

(** The double nearest the positive rational [n / d]. *)
Definition nearest (n d : positive) : Q :=
  let u := Z.max (exponent n d - 52) (-1074) in
  scale (round_half_even (Zpos n * 2 ^ Z.max 0 (- u)) (Zpos d * 2 ^ Z.max 0 u)) u.

Definition double (q : Q) : Q :=
  match Qnum q with
  | 0 => 0%Q
  | Zpos n => nearest n (Qden q)
  | Zneg n => (- nearest n (Qden q))%Q
  end.

(** [math.sqrt] keeps its result as the non-negative root of a rational
    radicand; a negative argument raises [ValueError].  The root is the
    exact one: the code's is computed in doubles (rounded differences,
    [**] of the C library, rounded sum and root), which can put a
    distance within a few parts in [10 ^ 16] of a threshold on the other
    side of it. *)
Inductive root : Set := Sqrt (radicand : Q).

Definition math_sqrt (q : Q) : result root :=
  if Qltb q 0 then Raise ValueError else Ok (Sqrt q).

(** [math.sqrt(s) < q]: for [s >= 0] the root is below [q] exactly when
    [q] is positive and [s < q * q]. *)
Definition root_ltb (r : root) (q : Q) : bool :=
  match r with
  | Sqrt s => Qltb 0 q && Qltb s (q * q)
  end.

End Py.

Import Py.

Notation "'let*' x ':=' m 'in' k" := (bind m (fun x => k))
  (at level 10, x name, m at level 100, k at level 200).

(** Python's short-circuit [and] / [not] on conditions that may raise. *)
Definition and_then (a : result bool) (b : result bool) : result bool :=
  let* x := a in if x then b else Ok false.
Definition not_ (a : result bool) : result bool :=
  let* x := a in Ok (negb x).

Infix "&&&" := and_then (at level 40, left associativity).

(** ** Landmarks and the gesture classifier *)

Record Landmark : Set := mkLandmark { x : Q; y : Q; z : Q }.

Module Gesture.

(** Lines 151-152: the nested helper of [recognize_gesture]. *)
Definition is_finger_extended (tip pip : Landmark) : bool :=
  Qltb (y tip) (y pip).

(** Lines 197-199. *)
Definition calculate_distance (point1 point2 : Landmark) : result root :=
  math_sqrt ((x point1 - x point2) ^ 2 + (y point1 - y point2) ^ 2)%Q.

(** [is_finger_extended(landmarks[tip], landmarks[tip-2])], the body of
    the generator expressions. *)
Definition extended_at (landmarks : list Landmark) (tip : nat) : result bool :=
  let* t := getitem landmarks tip in
  let* p := getitem landmarks (tip - 2) in
  Ok (is_finger_extended t p).

(** [any(... for tip in tips)]: stops at the first true element. *)
Fixpoint any_extended (landmarks : list Landmark) (tips : list nat) : result bool :=
  match tips with
  | [] => Ok false
  | tip :: rest =>
      let* b := extended_at landmarks tip in
      if b then Ok true else any_extended landmarks rest
  end.

(** [all(... for tip in tips)]: stops at the first false element. *)
Fixpoint all_extended (landmarks : list Landmark) (tips : list nat) : result bool :=
  match tips with
  | [] => Ok true
  | tip :: rest =>
      let* b := extended_at landmarks tip in
      if b then all_extended landmarks rest else Ok false
  end.

(** [all(not ... for tip in tips)]. *)
Fixpoint all_not_extended (landmarks : list Landmark) (tips : list nat) : result bool :=
  match tips with
  | [] => Ok true
  | tip :: rest =>
      let* b := extended_at landmarks tip in
      if negb b then all_not_extended landmarks rest else Ok false
  end.

(** [is_finger_extended(tip, landmarks[pip])] with the tip already bound. *)
Definition extended (landmarks : list Landmark) (tip : Landmark) (pip : nat) : result bool :=
  let* p := getitem landmarks pip in Ok (is_finger_extended tip p).

(** An [if c: return g  elif ...] chain. *)
Definition elif (c : result bool) (g : string) (rest : result string) : result string :=
  let* b := c in if b then Ok g else rest.

(** Lines 140-195. *)
Definition recognize_gesture (landmarks : list Landmark) : result string :=
  match landmarks with
  | [] => Ok "unknown"
  | _ =>
    let* thumb_tip := getitem landmarks 4 in
    let* index_tip := getitem landmarks 8 in
    let* middle_tip := getitem landmarks 12 in
    let* ring_tip := getitem landmarks 16 in
    let* pinky_tip := getitem landmarks 20 in
    elif (extended landmarks index_tip 6 &&&
          extended landmarks middle_tip 10 &&&
          not_ (extended landmarks ring_tip 14) &&&
          not_ (extended landmarks pinky_tip 18))
      "peace"
   (elif (extended landmarks thumb_tip 3 &&&
          not_ (any_extended landmarks [8; 12; 16; 20]%nat))
      "thumbs_up"
   (elif (not_ (extended landmarks thumb_tip 3) &&&
          not_ (any_extended landmarks [8; 12; 16; 20]%nat))
      "thumbs_down"
   (elif (all_not_extended landmarks [8; 12; 16; 20]%nat)
      "fist"
   (elif (all_extended landmarks [8; 12; 16; 20]%nat)
      "open_palm"
   (elif (extended landmarks index_tip 6 &&&
          not_ (any_extended landmarks [12; 16; 20]%nat))
      "pointing"
   (elif ((let* d := calculate_distance thumb_tip index_tip in
           Ok (root_ltb d (5 # 100))) &&&
          all_extended landmarks [12; 16; 20]%nat)
      "ok"
   (elif (extended landmarks index_tip 6 &&&
          extended landmarks pinky_tip 18 &&&
          not_ (any_extended landmarks [12; 16]%nat))
      "rock"
   (Ok "unknown"))))))))
  end.

End Gesture.

(** ** The classifier on a full hand

    The five extension predicates and the pinch test, read off a landmark
    list by position (thumb 4 against 3, the other tips against the joint
    two positions below). *)

Module Hand.
Import Gesture.

Definition finger_extended (landmarks : list Landmark) (tip pip : nat) : bool :=
  match landmarks !! tip, landmarks !! pip with
  | Some t, Some p => is_finger_extended t p
  | _, _ => false
  end.

Definition thumb_extended lm := finger_extended lm 4 3.
Definition index_extended lm := finger_extended lm 8 6.
Definition middle_extended lm := finger_extended lm 12 10.
Definition ring_extended lm := finger_extended lm 16 14.
Definition pinky_extended lm := finger_extended lm 20 18.

(** Squared planar distance between thumb tip and index tip. *)
Definition pinch_sq (landmarks : list Landmark) : Q :=
  match landmarks !! 4%nat, landmarks !! 8%nat with
  | Some t, Some i => ((x t - x i) ^ 2 + (y t - y i) ^ 2)%Q
  | _, _ => 0%Q
  end.

(** The [if]/[elif] chain of [recognize_gesture] as a decision on the six
    booleans it tests, in the order the source tests them. *)
Definition decide_gesture (thumb index middle ring pinky pinch : bool) : string :=
  if index && middle && negb ring && negb pinky then "peace"
  else if thumb && negb (index || middle || ring || pinky) then "thumbs_up"
  else if negb thumb && negb (index || middle || ring || pinky) then "thumbs_down"
  else if negb index && negb middle && negb ring && negb pinky then "fist"
  else if index && middle && ring && pinky then "open_palm"
  else if index && negb (middle || ring || pinky) then "pointing"
  else if pinch && (middle && ring && pinky) then "ok"
  else if index && pinky && negb (middle || ring) then "rock"
  else "unknown".

(** The pinch test of line 184 on the exact distance:
    [sqrt(d2) < 0.05] is [d2 < 0.05 * 0.05]. *)
Definition pinch (landmarks : list Landmark) : bool :=
  Qltb (pinch_sq landmarks) ((5 # 100) * (5 # 100)).

Definition labels : list string :=
  ["peace"; "thumbs_up"; "thumbs_down"; "fist"; "open_palm"; "pointing";
   "ok"; "rock"; "unknown"].

(** Sample hands: every joint at height 5, a tip at height 1 when its
    finger is extended (smaller [y] is higher on screen) and at 9 when it
    is not; all points share [x = 0]. *)
Definition point (px py : Q) : Landmark := {| x := px; y := py; z := 0 |}.

Definition sample_hand (thumb index middle ring pinky : bool) : list Landmark :=
  let tip (e : bool) := point 0 (if e then 1 else 9) in
  let j := point 0 5 in
  [j; j; j; j; tip thumb; j; j; j; tip index; j; j; j; tip middle;
   j; j; j; tip ring; j; j; j; tip pinky].

End Hand.

(** ** The random source

    The [random] module is global state outside the class.  It is a tape of
    raw words read left to right; every call consumes one word, so the
    number of calls a routine makes is visible in the cursor. *)

Module Rng.

Record state : Type := mkState { tape : nat -> N; cursor : nat }.

Definition next (s : state) : N * state :=
  (tape s (cursor s), {| tape := tape s; cursor := S (cursor s) |}).

(** [random.random()]: a 53-bit fraction in [0, 1). *)
Definition random (s : state) : Q * state :=
  let (w, s') := next s in
  (Z.of_N (w mod 2 ^ 53) # 2 ^ 53, s').

(** [random.randint(a, b)] for [a <= b]: both ends are included. *)
Definition randint (a b : Z) (s : state) : Z * state :=
  let (w, s') := next s in
  (a + Z.of_N w mod (b - a + 1), s').

(** [random.choice(seq)] on a non-empty sequence. *)
Definition choice {A} (d : A) (seq : list A) (s : state) : A * state :=
  let (w, s') := next s in
  (nth (N.to_nat w mod length seq) seq d, s').

(** A source whose first draws are the given words, followed by zeros. *)
Definition of_list (words : list N) : state :=
  {| tape := fun i => nth i words 0%N; cursor := 0 |}.

End Rng.

(** ** The state of a [CyberneticARHUD] object (lines 14-51, 66-70) *)

Record SystemStatus : Type := mkSystemStatus {
  cpu_usage : Q;
  memory_usage : Q;
  network_status : string;
  threat_level : string;
  battery_level : Z;
  system_time : Q;
  mission_status : string;
  neural_interface : string
}.

Record Blip : Set := mkBlip {
  angle : Z;
  distance : Z;
  type : string;
  lifetime : Z
}.

#[global] Instance Blip_eq_dec : EqDecision Blip.
Proof. solve_decision. Defined.

Record Weapon : Set := mkWeapon {
  name : string;
  ammo : Z;
  status : string
}.

Record HUD : Type := mkHUD {
  system_status : SystemStatus;
  scan_angle : Z;
  pulse_animation : Q;
  radar_blips : list Blip;
  system_boot_time : Q;
  frame_count : Z;
  hud_modes : list string;
  current_hud_mode : string;
  weapon_systems : list (string * Weapon);
  current_volume : Z;
  cpu_history : list Q;
  memory_history : list Q
}.

(** [__init__], with [now] the value of [datetime.now()] and [boot] that of
    [time.time()]. *)
Definition init (now boot : Q) : HUD := {|
  system_status := {|
    cpu_usage := 0; memory_usage := 0;
    network_status := "ONLINE"; threat_level := "LOW";
    battery_level := 100; system_time := now;
    mission_status := "ACTIVE"; neural_interface := "SYNCED" |};
  scan_angle := 0;
  pulse_animation := 0;
  radar_blips := [];
  system_boot_time := boot;
  frame_count := 0;
  hud_modes := ["COMBAT"; "STEALTH"; "NAVIGATION"; "SYSTEM"];
  current_hud_mode := "COMBAT";
  weapon_systems :=
    [("PRIMARY", {| name := "PLASMA RIFLE"; ammo := 85; status := "READY" |});
     ("SECONDARY", {| name := "ENERGY PISTOL"; ammo := 60; status := "READY" |});
     ("SPECIAL", {| name := "SONIC EMITTER"; ammo := 100; status := "CHARGING" |})];
  current_volume := 50;
  cpu_history := [];
  memory_history := []
|}.

(** ** Telemetry (lines 105-138) *)

Module Telemetry.

(** Line 118, as a function of [time_since_boot]. *)
Definition battery (time_since_boot : Q) : Z :=
  Z.max 10 (100 - int (time_since_boot / (10 # 1))).

Definition network_stats : list string := ["ONLINE"; "STABLE"; "ENCRYPTED"; "OPTIMAL"].
Definition threat_levels : list string := ["LOW"; "MEDIUM"; "HIGH"; "CRITICAL"].

(** [if random.random() < p: field = random.choice(values)] *)
Definition resample (p : Q) (values : list string) (old : string) (rng : Rng.state)
  : string * Rng.state :=
  let (u, rng1) := Rng.random rng in
  if Qltb u p then Rng.choice old values rng1 else (old, rng1).

(** [history.append(v)] followed by the shared [pop(0)] guard of line 136. *)
Definition push (v : Q) (history : list Q) : list Q := history ++ [v].
Definition pop0 (history : list Q) : list Q := drop 1 history.

(** [current_time] is [time.time()], [now] is [datetime.now()], and
    [cpu_percent], [memory_percent] are the [psutil] readings. *)
Definition update_system_metrics (self : HUD)
    (current_time now cpu_percent memory_percent : Q) (rng : Rng.state)
  : HUD * Rng.state :=
  let time_since_boot := (current_time - system_boot_time self)%Q in
  let st := system_status self in
  let '(net, rng1) := resample (1 # 100) network_stats (network_status st) rng in
  let '(threat, rng2) := resample (5 # 1000) threat_levels (threat_level st) rng1 in
  let cpu_h := push cpu_percent (cpu_history self) in
  let mem_h := push memory_percent (memory_history self) in
  let over := (50 <? length cpu_h)%nat in
  ({| system_status := {|
        cpu_usage := cpu_percent;
        memory_usage := memory_percent;
        network_status := net;
        threat_level := threat;
        battery_level := battery time_since_boot;
        system_time := now;
        mission_status := mission_status st;
        neural_interface := neural_interface st |};
      scan_angle := scan_angle self;
      pulse_animation := pulse_animation self;
      radar_blips := radar_blips self;
      system_boot_time := system_boot_time self;
      frame_count := frame_count self;
      hud_modes := hud_modes self;
      current_hud_mode := current_hud_mode self;
      weapon_systems := weapon_systems self;
      current_volume := current_volume self;
      cpu_history := if over then pop0 cpu_h else cpu_h;
      memory_history := if over then pop0 mem_h else mem_h |},
   rng2).

End Telemetry.

(** ** Images and the OpenCV rectangle

    An image is the list of its rows, each a list of BGR pixels.  The
    program draws rectangles with thickness [-1] (filled) and [1] (a
    one-pixel outline).  OpenCV takes the two corners in either order,
    includes both, and clips to the image. *)

Module Cv2.

Abbreviation Color := (Z * Z * Z)%type (only parsing).
Abbreviation Image := (list (list Color)) (only parsing).

(** [np.zeros((rows, cols, 3))] *)
Definition zeros (rows cols : nat) : Image :=
  replicate rows (replicate cols (0, 0, 0)).

Definition pixel (img : Image) (px py : Z) : option Color :=
  if (px <? 0) || (py <? 0) then None
  else match img !! Z.to_nat py with
       | Some row => row !! Z.to_nat px
       | None => None
       end.

(** Recolour the pixels selected by [inside]. *)
Definition paint (inside : Z -> Z -> bool) (color : Color) (img : Image) : Image :=
  imap (fun r row =>
          imap (fun c old => if inside (Z.of_nat c) (Z.of_nat r) then color else old) row)
       img.

Definition in_box (pt1 pt2 : Z * Z) (px py : Z) : bool :=
  (Z.min (fst pt1) (fst pt2) <=? px) && (px <=? Z.max (fst pt1) (fst pt2)) &&
  (Z.min (snd pt1) (snd pt2) <=? py) && (py <=? Z.max (snd pt1) (snd pt2)).

Definition on_edge (pt1 pt2 : Z * Z) (px py : Z) : bool :=
  in_box pt1 pt2 px py &&
  ((px =? Z.min (fst pt1) (fst pt2)) || (px =? Z.max (fst pt1) (fst pt2)) ||
   (py =? Z.min (snd pt1) (snd pt2)) || (py =? Z.max (snd pt1) (snd pt2))).

Definition rectangle (img : Image) (pt1 pt2 : Z * Z) (color : Color) (thickness : Z)
  : Image :=
  if thickness <? 0 then paint (in_box pt1 pt2) color img
  else paint (on_edge pt1 pt2) color img.

(** A corner is passed to OpenCV as a pair of C [int]s. *)
Definition coordinate (v : Z) : Prop := - 2 ^ 31 <= v < 2 ^ 31.

End Cv2.

(** [int(width * progress)], an [int] times a [float]: the [int] is
    converted to a double and the product is rounded. *)
Definition fill_width (width : Z) (progress : Q) : Z :=
  int (double (double (inject_Z width) * progress)).

(** Lines 536-541. *)
Definition draw_progress_bar (frame : Cv2.Image) (position : Z * Z)
    (width height : Z) (progress : Q) : Cv2.Image :=
  let '(x, y) := position in
  let frame1 := Cv2.rectangle frame (x, y) (x + width, y + height) (0, 30, 0) (-1) in
  let frame2 := Cv2.rectangle frame1 (x, y)
                  (x + fill_width width progress, y + height) (0, 255, 0) (-1) in
  Cv2.rectangle frame2 (x, y) (x + width, y + height) (0, 150, 0) 1.

(** ** Frames

    A frame is a [numpy] image.  Text, circles and lines are rasterised by
    OpenCV, outside this program; the embedding keeps, for every drawing a
    routine adds, where it is anchored and which program values it renders,
    in the order the routine uses them.  Two frames with the same layers
    show the same picture.  A widget builds its panel and copies it into
    the frame; whether the frame has room for the panel is [Numpy.fits],
    tested where the widget is called ([Loop.call]). *)

Inductive Shown : Type :=
| Int (v : Z)
| Num (v : Q)
| Text (v : string)
| Joints (v : list Landmark)
| Pixels (v : Cv2.Image).

Record Layer : Type := mkLayer { anchor : Z * Z; content : list Shown }.

Record Frame : Type := mkFrame { height : Z; width : Z; layers : list Layer }.

Definition overlay (frame : Frame) (at_ : Z * Z) (shown : list Shown) : Frame :=
  {| height := height frame; width := width frame;
     layers := layers frame ++ [ {| anchor := at_; content := shown |} ] |}.

(** ** Field updates on [self] *)

Definition set_scan_angle (v : Z) (self : HUD) : HUD :=
  {| system_status := system_status self; scan_angle := v;
     pulse_animation := pulse_animation self; radar_blips := radar_blips self;
     system_boot_time := system_boot_time self; frame_count := frame_count self;
     hud_modes := hud_modes self; current_hud_mode := current_hud_mode self;
     weapon_systems := weapon_systems self; current_volume := current_volume self;
     cpu_history := cpu_history self; memory_history := memory_history self |}.

Definition set_pulse_animation (v : Q) (self : HUD) : HUD :=
  {| system_status := system_status self; scan_angle := scan_angle self;
     pulse_animation := v; radar_blips := radar_blips self;
     system_boot_time := system_boot_time self; frame_count := frame_count self;
     hud_modes := hud_modes self; current_hud_mode := current_hud_mode self;
     weapon_systems := weapon_systems self; current_volume := current_volume self;
     cpu_history := cpu_history self; memory_history := memory_history self |}.

Definition set_radar_blips (v : list Blip) (self : HUD) : HUD :=
  {| system_status := system_status self; scan_angle := scan_angle self;
     pulse_animation := pulse_animation self; radar_blips := v;
     system_boot_time := system_boot_time self; frame_count := frame_count self;
     hud_modes := hud_modes self; current_hud_mode := current_hud_mode self;
     weapon_systems := weapon_systems self; current_volume := current_volume self;
     cpu_history := cpu_history self; memory_history := memory_history self |}.

Definition set_frame_count (v : Z) (self : HUD) : HUD :=
  {| system_status := system_status self; scan_angle := scan_angle self;
     pulse_animation := pulse_animation self; radar_blips := radar_blips self;
     system_boot_time := system_boot_time self; frame_count := v;
     hud_modes := hud_modes self; current_hud_mode := current_hud_mode self;
     weapon_systems := weapon_systems self; current_volume := current_volume self;
     cpu_history := cpu_history self; memory_history := memory_history self |}.

Definition set_current_hud_mode (v : string) (self : HUD) : HUD :=
  {| system_status := system_status self; scan_angle := scan_angle self;
     pulse_animation := pulse_animation self; radar_blips := radar_blips self;
     system_boot_time := system_boot_time self; frame_count := frame_count self;
     hud_modes := hud_modes self; current_hud_mode := v;
     weapon_systems := weapon_systems self; current_volume := current_volume self;
     cpu_history := cpu_history self; memory_history := memory_history self |}.

(** ** Radar contacts (lines 246-308) *)

Module Radar.

Definition radar_size : Z := 220.
Definition blip_types : list string := ["friend"; "neutral"; "hostile"].

(** Lines 274-281: the spawn.  [random.random()] is always drawn; the
    four further draws happen only when a contact is appended. *)
Definition spawn (blips : list Blip) (rng : Rng.state) : list Blip * Rng.state :=
  let (u, rng1) := Rng.random rng in
  if Qltb u (1 # 10) && (length blips <? 8)%nat then
    let (angle, rng2) := Rng.randint 0 360 rng1 in
    let (distance, rng3) := Rng.randint 20 (radar_size / 2 - 30) rng2 in
    let (blip_type, rng4) := Rng.choice "friend" blip_types rng3 in
    let (life, rng5) := Rng.randint 50 200 rng4 in
    (blips ++ [ {| angle := angle; distance := distance;
                   type := blip_type; lifetime := life |} ], rng5)
  else (blips, rng1).

(** [blip['lifetime'] -= 1] *)
Definition age (blip : Blip) : Blip :=
  {| angle := angle blip; distance := distance blip;
     type := type blip; lifetime := lifetime blip - 1 |}.

(** [list.remove(v)]: drops the first element equal to [v]. *)
Fixpoint list_remove (v : Blip) (l : list Blip) : list Blip :=
  match l with
  | [] => []
  | b :: rest => if decide (b = v) then rest else b :: list_remove v rest
  end.

(** Lines 284-299.  The loop walks a copy of the list while the list
    itself shrinks.  The contact objects are shared between the two, so
    the decrement is seen in the list; [visited] is the part of the list
    before the current contact, [pending] the contacts still to visit.
    The list at the moment of [remove] is [visited ++ blip' :: rest], and
    [remove] looks for the first contact equal to [blip'] from the front,
    which leaves [rest] in place. *)
Fixpoint age_loop (visited pending : list Blip) : list Blip :=
  match pending with
  | [] => visited
  | blip :: rest =>
      let blip' := age blip in
      if lifetime blip' <=? 0
      then age_loop (list_remove blip' (visited ++ [blip'])) rest
      else age_loop (visited ++ [blip']) rest
  end.

(** What the loop draws for one contact (before its decrement). *)
Definition blip_shown (blip : Blip) : list Shown :=
  [Int (distance blip); Int (angle blip); Text (type blip)].

(** Lines 246-308. *)
Definition draw_radar_display (self : HUD) (rng : Rng.state) (frame : Frame)
  : Frame * HUD * Rng.state :=
  let center_x := width frame - radar_size - 30 in
  let center_y := height frame - radar_size - 30 in
  let scan := (scan_angle self + 3) mod 360 in
  let '(blips, rng') := spawn (radar_blips self) rng in
  let shown := Int scan :: concat (map blip_shown blips) in
  (overlay frame (center_x, center_y) shown,
   set_radar_blips (age_loop [] blips) (set_scan_angle scan self),
   rng').

(** [n] consecutive calls, each on the frame the previous one returned. *)
Fixpoint ticks (n : nat) (self : HUD) (rng : Rng.state) (frame : Frame)
  : Frame * HUD * Rng.state :=
  match n with
  | O => (frame, self, rng)
  | S n =>
      let '(frame, self, rng) := draw_radar_display self rng frame in
      ticks n self rng frame
  end.

End Radar.

(** ** The other panel widgets (lines 202-244, 310-534)

    Each takes the clock readings it makes as arguments. *)

Module Widgets.

(** Python's [%] on floats, for a positive modulus. *)
Definition fmod (a b : Q) : Q := (a - b * inject_Z (Qfloor (a / b)))%Q.

(** [math.pi], the double nearest to pi. *)
Definition math_pi : Q := 884279719003555 # 281474976710656.

(** Lines 236-238: the three bars of the status panel, drawn on the
    panel.  Each fraction is a quotient by 100, rounded. *)
Definition draw_bars (panel : Cv2.Image) (st : SystemStatus) : Cv2.Image :=
  let panel := draw_progress_bar panel (120, 50) 200 8
                 (double (cpu_usage st / (100 # 1))) in
  let panel := draw_progress_bar panel (120, 68) 200 8
                 (double (memory_usage st / (100 # 1))) in
  draw_progress_bar panel (120, 86) 200 8
    (double (inject_Z (battery_level st) / (100 # 1))).

(** Lines 202-244.  [now] is [datetime.now()].  The header and the text
    lines are rasterised by OpenCV; the layer keeps the values they
    render, and the bars as drawn on an empty panel. *)
Definition draw_status_panel (self : HUD) (now : Q) (frame : Frame) : Frame :=
  let st := system_status self in
  overlay frame (20, 20)
    [Int (frame_count self);
     Num (cpu_usage st); Num (memory_usage st);
     Text (network_status st); Text (threat_level st);
     Int (battery_level st); Text (current_hud_mode self);
     Num now; Text (mission_status st);
     Pixels (draw_bars (Cv2.zeros 180 450) st)].

(** The seven [random.randint] draws of lines 328-333, in source order. *)
Definition vital_draws (rng : Rng.state) : list Z * Rng.state :=
  let (o2, rng) := Rng.randint (-1) 1 rng in
  let (sys, rng) := Rng.randint (-5) 5 rng in
  let (dia, rng) := Rng.randint (-3) 3 rng in
  let (temp, rng) := Rng.randint 0 2 rng in
  let (neural, rng) := Rng.randint 0 10 rng in
  let (sync, rng) := Rng.randint 0 8 rng in
  let (adrenaline, rng) := Rng.randint 0 10 rng in
  ([98 + o2; 120 + sys; 80 + dia; 5 + temp; 85 + neural; 92 + sync; 15 + adrenaline],
   rng).

(** Lines 310-354.  The heart rate and the waveform are sines of the
    phase; the layer keeps the phase. *)
Definition draw_vital_signs (self : HUD) (rng : Rng.state) (frame : Frame)
  : Frame * HUD * Rng.state :=
  let pulse := fmod (pulse_animation self + (15 # 100)) ((2 # 1) * math_pi) in
  let '(vitals, rng') := vital_draws rng in
  (overlay frame (width frame - 340, 20) (Num pulse :: map Int vitals),
   set_pulse_animation pulse self,
   rng').

(** Lines 356-391.  [t1], [t2] are the two [time.time()] readings. *)
Definition draw_navigation (self : HUD) (t1 t2 : Q) (frame : Frame) : Frame :=
  overlay frame (width frame / 2, 60)
    [Num (fmod (t1 * (20 # 1)) (360 # 1)); Num t2].

(** [self.weapon_systems[key]]; the two keys the weapon panel reads
    are present from [__init__] on ([Inv.weapons_listed]), and a missing
    key, a [KeyError] in the code, is [None]. *)
Definition weapon (self : HUD) (key : string) : option Weapon :=
  snd <$> find (fun kv => bool_decide (fst kv = key)) (weapon_systems self).

Definition weapon_shown (w : option Weapon) : list Shown :=
  match w with
  | Some w => [Text (name w); Int (ammo w); Text (status w)]
  | None => []
  end.

(** Lines 393-423. *)
Definition draw_weapon_system (self : HUD) (frame : Frame) : Frame :=
  overlay frame (20, height frame - 140)
    (weapon_shown (weapon self "PRIMARY") ++ weapon_shown (weapon self "SECONDARY")).

(** Lines 425-459: constant content. *)
Definition draw_communication (self : HUD) (frame : Frame) : Frame :=
  overlay frame (width frame - 240, height frame - 120) [].

(** Lines 461-503. *)
Definition draw_threat_assessment (self : HUD) (frame : Frame) : Frame :=
  overlay frame (width frame / 2 - 150, height frame / 2 - 70)
    [Text (threat_level (system_status self))].

(** Lines 505-534.  [t] is the [time.time()] reading. *)
Definition draw_mission_objectives (self : HUD) (t : Q) (frame : Frame) : Frame :=
  overlay frame (width frame - 370, height frame / 2 - 60)
    [Int (int (t - system_boot_time self))].

End Widgets.

(** ** Copying a panel into the frame

    Seven of the eight widgets end with
    [frame[y:y+h, x:x+w] = panel] (lines 242, 302, 352, 421, 457, 501,
    532).  A slice bound below zero counts from the end, and bounds are
    cut to the axis; the assignment raises [ValueError] unless the slice
    has exactly the panel's shape. *)

Module Numpy.

(** A slice bound on an axis of length [n]. *)
Definition clip (n i : Z) : Z :=
  if i <? 0 then Z.max 0 (i + n) else Z.min i n.

(** The length of [start:stop] on an axis of length [n]. *)
Definition slice_length (n start stop : Z) : Z :=
  Z.max 0 (clip n stop - clip n start).

(** Whether a panel of the given width and height can be assigned at
    [(x, y)]. *)
Definition fits (frame : Frame) (at_ size : Z * Z) : bool :=
  (slice_length (height frame) (snd at_) (snd at_ + snd size) =? snd size) &&
  (slice_length (width frame) (fst at_) (fst at_ + fst size) =? fst size).

(** Where each widget copies its panel, and the panel's width and
    height; [draw_navigation] draws on the frame itself. *)
Definition panel (element_name : string) (frame : Frame) : option ((Z * Z) * (Z * Z)) :=
  let h := height frame in
  let w := width frame in
  if decide (element_name = "status_panel") then Some ((20, 20), (450, 180))
  else if decide (element_name = "radar_display")
    then Some ((w - Radar.radar_size - 30, h - Radar.radar_size - 30),
               (Radar.radar_size, Radar.radar_size))
  else if decide (element_name = "vital_signs") then Some ((w - 340, 20), (320, 160))
  else if decide (element_name = "weapon_system") then Some ((20, h - 140), (280, 120))
  else if decide (element_name = "communication")
    then Some ((w - 240, h - 120), (220, 100))
  else if decide (element_name = "threat_assessment")
    then Some ((w / 2 - 150, h / 2 - 70), (300, 140))
  else if decide (element_name = "mission_objectives")
    then Some ((w - 370, h / 2 - 60), (350, 120))
  else None.

Definition blit_fits (element_name : string) (frame : Frame) : bool :=
  match panel element_name frame with
  | Some (at_, size) => fits frame at_ size
  | None => true
  end.

End Numpy.

(** ** Hand processing (lines 543-568) *)

Module Hands.

(** The body of the [for] loop, once per detected hand: the skeleton is
    drawn, the hand is classified, the label is written at the bottom
    left, and [gesture] is overwritten.  The detector reports 21
    landmarks for a hand; what [draw_landmarks] does with fewer is not
    modelled. *)
Fixpoint each_hand (hands : list (list Landmark)) (frame : Frame) (gesture : string)
  : result (Frame * string) :=
  match hands with
  | [] => Ok (frame, gesture)
  | hand_landmarks :: rest =>
      let frame := overlay frame (0, 0) [Joints hand_landmarks] in
      let* gesture := Gesture.recognize_gesture hand_landmarks in
      let frame := overlay frame (10, height frame - 20) [Text ("GESTURE: " +:+ gesture)] in
      each_hand rest frame gesture
  end.

(** [multi_hand_landmarks] is [None] when no hand is detected. *)
Definition process_hands (frame : Frame) (multi_hand_landmarks : option (list (list Landmark)))
  : result (Frame * string) :=
  match multi_hand_landmarks with
  | None => Ok (frame, "no_hand")
  | Some hands => each_hand hands frame "no_hand"
  end.

(** The second component of what [process_hands] returns. *)
Definition gesture_of (r : result (Frame * string)) : result string :=
  let* fg := r in Ok (snd fg).

End Hands.

(** ** The widget registry (lines 72-83)

    [hud_elements] maps a name to a bound draw method; the loop calls each
    as [element_func(frame)].  A method can read and assign [self], draw
    from the random source and read the clock, so that is the type of an
    entry.  [Clock] holds the readings the widgets take in one pass. *)

Record Clock : Type := mkClock {
  status_now : Q;
  navigation_t1 : Q;
  navigation_t2 : Q;
  mission_t : Q
}.

Definition widget : Type :=
  HUD -> Rng.state -> Clock -> Frame -> Frame * HUD * Rng.state.

Definition hud_elements : list (string * widget) :=
  [("status_panel",
    fun self rng clock frame =>
      (Widgets.draw_status_panel self (status_now clock) frame, self, rng));
   ("radar_display",
    fun self rng clock frame => Radar.draw_radar_display self rng frame);
   ("vital_signs",
    fun self rng clock frame => Widgets.draw_vital_signs self rng frame);
   ("navigation",
    fun self rng clock frame =>
      (Widgets.draw_navigation self (navigation_t1 clock) (navigation_t2 clock) frame,
       self, rng));
   ("weapon_system",
    fun self rng clock frame => (Widgets.draw_weapon_system self frame, self, rng));
   ("communication",
    fun self rng clock frame => (Widgets.draw_communication self frame, self, rng));
   ("threat_assessment",
    fun self rng clock frame => (Widgets.draw_threat_assessment self frame, self, rng));
   ("mission_objectives",
    fun self rng clock frame =>
      (Widgets.draw_mission_objectives self (mission_t clock) frame, self, rng))].

(** ** The main loop (lines 608-656)

    One [Input] holds what a pass of the loop reads from outside: the
    capture, the clock at each of its readings, the [psutil] figures, the
    detected hands and the key.  The frame-rate counter is local to [run]
    and only feeds the FPS text; speech is outside the program. *)

Module Loop.

Record Input : Type := mkInput {
  ret : bool;
  shape : Z * Z;
  current_time : Q;
  metrics_now : Q;
  cpu_percent : Q;
  memory_percent : Q;
  multi_hand_landmarks : option (list (list Landmark));
  clock : Clock;
  key : Z
}.

Inductive outcome : Type :=
| Next (self : HUD) (rng : Rng.state) (frame : Frame)
| Break (self : HUD) (rng : Rng.state).

Definition state_of (o : outcome) : HUD :=
  match o with
  | Next self _ _ => self
  | Break self _ => self
  end.

(** [seq.index(v)] *)
Fixpoint index (v : string) (seq : list string) : result nat :=
  match seq with
  | [] => Raise ValueError
  | s :: rest => if decide (s = v) then Ok 0%nat
                 else let* i := index v rest in Ok (S i)
  end.

(** Lines 650-651. *)
Definition cycle_mode (self : HUD) : result HUD :=
  let* current_index := index (current_hud_mode self) (hud_modes self) in
  let* mode := getitem (hud_modes self)
                 ((current_index + 1) mod length (hud_modes self)) in
  Ok (set_current_hud_mode mode self).

(** Lines 645-656, with [ord('q') = 113], [ord('m') = 109],
    [ord('r') = 114]. *)
Definition on_key (self : HUD) (rng : Rng.state) (frame : Frame) (key : Z)
  : result outcome :=
  if key =? 113 then Ok (Break self rng)
  else if key =? 109 then
    let* self := cycle_mode self in Ok (Next self rng frame)
  else if key =? 114 then Ok (Next (set_radar_blips [] self) rng frame)
  else Ok (Next self rng frame).

(** [element_func(frame)]: the method runs, and the copy of its panel
    into the frame raises [ValueError] when the frame has no room for
    it.  The exception leaves [run], so what the method assigned before
    the copy is not seen again. *)
Definition call (element_name : string) (element_func : widget)
    (self : HUD) (rng : Rng.state) (clock : Clock) (frame : Frame)
  : result (Frame * HUD * Rng.state) :=
  if Numpy.blit_fits element_name frame
  then Ok (element_func self rng clock frame)
  else Raise ValueError.

(** Lines 631-632: [for element_name, element_func in ...items()]. *)
Fixpoint draw_elements (elements : list (string * widget))
    (self : HUD) (rng : Rng.state) (clock : Clock) (frame : Frame)
  : result (Frame * HUD * Rng.state) :=
  match elements with
  | [] => Ok (frame, self, rng)
  | (element_name, element_func) :: rest =>
      let* drawn := call element_name element_func self rng clock frame in
      let '(frame, self, rng) := drawn in
      draw_elements rest self rng clock frame
  end.

(** Lines 609-656: one pass. *)
Definition iteration (self : HUD) (rng : Rng.state) (i : Input) : result outcome :=
  if negb (ret i) then Ok (Break self rng)
  else
    let self := set_frame_count (frame_count self + 1) self in
    let frame := {| height := fst (shape i); width := snd (shape i); layers := [] |} in
    let '(self, rng) :=
      Telemetry.update_system_metrics self (current_time i) (metrics_now i)
        (cpu_percent i) (memory_percent i) rng in
    let* fg := Hands.process_hands frame (multi_hand_landmarks i) in
    let* drawn := draw_elements hud_elements self rng (clock i) (fst fg) in
    let '(frame, self, rng) := drawn in
    on_key self rng frame (key i).

(** The loop over the passes for which input is available; the result is
    the state when the loop is left or the input ends. *)
Fixpoint run (self : HUD) (rng : Rng.state) (inputs : list Input)
  : result (HUD * Rng.state) :=
  match inputs with
  | [] => Ok (self, rng)
  | i :: rest =>
      let* o := iteration self rng i in
      match o with
      | Next self' rng' _ => run self' rng' rest
      | Break self' rng' => Ok (self', rng')
      end
  end.

End Loop.

(** ** Moving a hand in the frame

    The landmark source reports positions relative to the frame.  The
    transformations below describe the same hand seen elsewhere: moved by
    a fixed offset, or in the horizontally flipped picture that line 622
    produces with [cv2.flip(frame, 1)]. *)

Module Move.

Definition shift (dx dy dz : Q) (p : Landmark) : Landmark :=
  {| x := x p + dx; y := y p + dy; z := z p + dz |}.

Definition mirror (p : Landmark) : Landmark :=
  {| x := 1 - x p; y := y p; z := z p |}.

(** Two landmarks over the same point of the picture, at any depth. *)
Definition same_xy (p q : Landmark) : Prop := x p = x q /\ y p = y q.

(** Squared planar distance, the radicand of [calculate_distance]. *)
Definition sq_distance (p q : Landmark) : Q :=
  ((x p - x q) ^ 2 + (y p - y q) ^ 2)%Q.

End Move.

(** ** What the object looks like between passes

    The conditions below hold after [__init__] and are the ones the code
    relies on without testing them: the two histories grow together, the
    mode is one of the listed modes, the animation phases stay inside one
    period, every radar contact carries values a spawn can produce, and
    the two weapons the weapon panel shows are listed. *)

Module Inv.

Definition contact_ok (b : Blip) : Prop :=
  0 <= angle b <= 360 /\
  20 <= distance b <= 80 /\
  type b ∈ Radar.blip_types /\
  1 <= lifetime b <= 199.

Record wf (self : HUD) : Prop := mkWf {
  histories_paired : length (cpu_history self) = length (memory_history self);
  histories_capped : (length (cpu_history self) <= 50)%nat;
  network_known : network_status (system_status self) ∈ Telemetry.network_stats;
  threat_known : threat_level (system_status self) ∈ Telemetry.threat_levels;
  mode_known : current_hud_mode self ∈ hud_modes self;
  scan_in_range : 0 <= scan_angle self < 360;
  pulse_in_range :
    (0 <= pulse_animation self)%Q /\
    (pulse_animation self < (2 # 1) * Widgets.math_pi)%Q;
  contacts_ok : Forall contact_ok (radar_blips self);
  contacts_capped : (length (radar_blips self) <= 8)%nat;
  weapons_listed :
    is_Some (Widgets.weapon self "PRIMARY") /\
    is_Some (Widgets.weapon self "SECONDARY")
}.

(** The landmark source's contract: 21 landmarks for every detected hand. *)
Definition hands_full (i : Loop.Input) : Prop :=
  match Loop.multi_hand_landmarks i with
  | None => True
  | Some hands => Forall (fun h => length h = 21%nat) hands
  end.

(** A capture with room for every panel: at least 250 rows and 470
    columns. *)
Definition roomy (i : Loop.Input) : Prop :=
  250 <= fst (Loop.shape i) /\ 470 <= snd (Loop.shape i).

(** The attributes no statement of the loop assigns. *)
Definition same_settings (self self' : HUD) : Prop :=
  hud_modes self' = hud_modes self /\
  weapon_systems self' = weapon_systems self /\
  current_volume self' = current_volume self /\
  system_boot_time self' = system_boot_time self /\
  mission_status (system_status self') = mission_status (system_status self) /\
  neural_interface (system_status self') = neural_interface (system_status self).

(** Two inputs of a pass that differ at most in the detected hands. *)
Definition same_but_hands (i i' : Loop.Input) : Prop :=
  Loop.ret i = Loop.ret i' /\
  Loop.shape i = Loop.shape i' /\
  Loop.current_time i = Loop.current_time i' /\
  Loop.metrics_now i = Loop.metrics_now i' /\
  Loop.cpu_percent i = Loop.cpu_percent i' /\
  Loop.memory_percent i = Loop.memory_percent i' /\
  Loop.clock i = Loop.clock i' /\
  Loop.key i = Loop.key i'.

(** What two calls of the widgets on frames of the same size have in
    common: both raise the same exception, or both return, with the same
    object and random source. *)
Definition same_drawn (self : HUD)
    (r r' : result (Frame * HUD * Rng.state)) : Prop :=
  match r, r' with
  | Ok (f, s, g), Ok (f', s', g') =>
      s = s' /\ g = g' /\
      exists scan blips pulse,
        s = set_pulse_animation pulse (set_radar_blips blips (set_scan_angle scan self))
  | Raise e, Raise e' => e = e'
  | _, _ => False
  end.

(** The random source an outcome carries. *)
Definition rng_of (o : Loop.outcome) : Rng.state :=
  match o with
  | Loop.Next _ rng _ => rng
  | Loop.Break _ rng => rng
  end.

(** Whether an outcome continues the loop. *)
Definition continues (o : Loop.outcome) : bool :=
  match o with
  | Loop.Next _ _ _ => true
  | Loop.Break _ _ => false
  end.

(** A pass of the loop on a 1280x720 capture at time [t], with the given
    hands and key. *)
Definition sample_input (t : Q) (hands : option (list (list Landmark))) (key : Z)
  : Loop.Input :=
  {| Loop.ret := true; Loop.shape := (720, 1280);
     Loop.current_time := t; Loop.metrics_now := t;
     Loop.cpu_percent := 25 # 1; Loop.memory_percent := 40 # 1;
     Loop.multi_hand_landmarks := hands;
     Loop.clock := {| status_now := t; navigation_t1 := t;
                      navigation_t2 := t; mission_t := t |};
     Loop.key := key |}.

(** An outcome without its frame, and a pass's result without it. *)
Definition summary (o : Loop.outcome) : HUD * Rng.state * bool :=
  (Loop.state_of o, rng_of o, continues o).

Definition forget_frame (r : result Loop.outcome) : result (HUD * Rng.state * bool) :=
  let* o := r in Ok (summary o).

End Inv.

(** ** The scan-line effect (lines 634-637)

    [frame[y:y+1, :] = frame[y:y+1, :] * 0.8] for [y] in
    [range(0, height, 4)]: the product is a float array, and storing it
    back into the [uint8] frame truncates each value. *)

Module Post.

Definition dim (v : Z) : Z := int (inject_Z v * (8 # 10)).

Definition dim_pixel (c : Cv2.Color) : Cv2.Color :=
  let '(b, g, r) := c in (dim b, dim g, dim r).

Definition scanlines (frame : Cv2.Image) : Cv2.Image :=
  imap (fun y row => if (y mod 4 =? 0)%nat then dim_pixel <$> row else row) frame.

End Post.

(** ** Speech (lines 85-103)

    The engine is outside the program; what matters here is which
    attributes exist and when an utterance is attempted.  [tts_engine] is
    false for [None].  [last_audio_time] is [None] while the attribute has
    never been assigned: reading it then raises [AttributeError]. *)

Module Audio.

Record state : Type := mkState { tts_engine : bool; last_audio_time : option Q }.

(** Lines 85-93.  The three flags say whether [pyttsx3.init()] and the
    two [setProperty] calls returned; the first that raises sends control
    to the [except] branch. *)
Definition setup_audio_feedback (init_ok rate_ok volume_ok : bool) : state :=
  if init_ok && rate_ok && volume_ok
  then {| tts_engine := true; last_audio_time := Some 0%Q |}
  else {| tts_engine := false; last_audio_time := None |}.

Inductive outcome : Type :=
| Returned (said : bool) (self : state)
| AttributeError.

(** Lines 95-103.  [t1] is the [time.time()] of the test, [say_ok] whether
    [say] and [runAndWait] returned, [t2] the [time.time()] stored after
    them. *)
Definition speak (self : state) (t1 : Q) (say_ok : bool) (t2 : Q) : outcome :=
  if tts_engine self then
    match last_audio_time self with
    | None => AttributeError
    | Some last =>
        if Qltb (2 # 1) (t1 - last) then
          if say_ok
          then Returned true {| tts_engine := tts_engine self; last_audio_time := Some t2 |}
          else Returned false self
        else Returned false self
    end
  else Returned false self.

(** A series of [speak] calls; the result lists, for every utterance
    made, the two clock readings of its call. *)
Fixpoint speak_all (self : state) (calls : list (Q * bool * Q))
  : option (list (Q * Q) * state) :=
  match calls with
  | [] => Some ([], self)
  | (t1, say_ok, t2) :: rest =>
      match speak self t1 say_ok t2 with
      | AttributeError => None
      | Returned said self' =>
          match speak_all self' rest with
          | Some (made, final) => Some (if said then (t1, t2) :: made else made, final)
          | None => None
          end
      end
  end.

(** Every utterance starts more than two seconds after the time stored
    by the one before ([last] for the first). *)
Fixpoint spaced (last : Q) (made : list (Q * Q)) : Prop :=
  match made with
  | [] => True
  | (t1, t2) :: rest => (2 # 1 < t1 - last)%Q /\ spaced t2 rest
  end.

End Audio.

(** ** Where the animated parts are drawn

    The positions below are computed with [math.cos] and [math.sin],
    which are outside the program: they are parameters here, and the
    properties assume only that their values lie between -1 and 1. *)

Module Render.

Section Trig.
Variables math_cos math_sin : Q -> Q.

(** [math.radians(deg)] *)
Definition radians (deg : Q) : Q := (deg * (Widgets.math_pi / (180 # 1)))%Q.

(** Lines 285-286: the centre of a contact's dot in the radar panel. *)
Definition blip_xy (blip : Blip) : Z * Z :=
  (Radar.radar_size / 2
     + int (inject_Z (distance blip) * math_cos (radians (inject_Z (angle blip)))),
   Radar.radar_size / 2
     + int (inject_Z (distance blip) * math_sin (radians (inject_Z (angle blip))))).

(** Lines 268-269: the far end of the scan line. *)
Definition scan_end (scan_angle : Z) : Z * Z :=
  (Radar.radar_size / 2
     + int (inject_Z (Radar.radar_size / 2 - 15) * math_cos (radians (inject_Z scan_angle))),
   Radar.radar_size / 2
     + int (inject_Z (Radar.radar_size / 2 - 15) * math_sin (radians (inject_Z scan_angle)))).

(** Line 324. *)
Definition heart_rate (pulse_animation : Q) : Z :=
  72 + int ((8 # 1) * math_sin pulse_animation).

(** Lines 342-345: [for x in range(0, 300, 4)]. *)
Definition waveform (pulse_animation : Q) : list (Z * Z) :=
  map (fun k => let x := 4 * Z.of_nat k in
                (x + 10,
                 140 + int ((12 # 1) * math_sin (inject_Z x * (5 # 100) + pulse_animation))))
      (seq 0 75).

(** Lines 211-212: the colour of the status panel's header. *)
Definition header_color (frame_count : Z) : Cv2.Color :=
  let pulse := ((math_sin (inject_Z frame_count * (1 # 10)) + 1) / (2 # 1))%Q in
  (0, int ((100 # 1) + (155 # 1) * pulse), 0).

End Trig.

End Render.

(** * Properties *)

(** ** Floats *)

Lemma Qltb_lt (a b : Q) : Qltb a b = true <-> (a < b)%Q.
Proof. unfold Qltb, Qlt. apply Z.ltb_lt. Qed.

Lemma Qltb_ge (a b : Q) : Qltb a b = false <-> (b <= a)%Q.
Proof. unfold Qltb, Qle. apply Z.ltb_ge. Qed.

Lemma Qsquare_nonneg (a : Q) : (0 <= a ^ 2)%Q.
Proof.
  unfold Qle. cbn. rewrite Z.mul_1_r. apply Z.square_nonneg.
Qed.

Lemma sum_squares_nonneg (a b : Q) : Qltb (a ^ 2 + b ^ 2) 0 = false.
Proof.
  apply Qltb_ge.
  replace 0%Q with (0 + 0)%Q by reflexivity.
  apply Qplus_le_compat; apply Qsquare_nonneg.
Qed.

(** ** Rounding to the nearest double *)

Section Doubles.
Lemma round_half_even_spec (a b : Z) :
  0 < b ->
  let m := round_half_even a b in
  ((2 * m - 1) * b <= 2 * a /\ ((2 * m - 1) * b = 2 * a -> Z.even m = true)) /\
  (2 * a <= (2 * m + 1) * b /\ (2 * a = (2 * m + 1) * b -> Z.even m = true)).
Proof.
  intros Hb. unfold round_half_even.
  pose proof (Z.div_mod a b ltac:(lia)) as E.
  pose proof (Z.mod_pos_bound a b Hb) as R.
  set (q := a / b) in *. set (r := a mod b) in *.
  destruct (Z.compare_spec (2 * r) b) as [C | C | C]; cbv zeta.
  - destruct (Z.even q) eqn:Ev.
    + repeat split; try nia. intros _. exact Ev.
    + assert (Z.even (q + 1) = true).
      { rewrite Z.even_add, Ev. reflexivity. }
      repeat split; try nia. intros _. assumption.
  - repeat split; nia.
  - repeat split; nia.
Qed.

Lemma round_half_even_le (a b k : Z) :
  0 < b -> a <= k * b -> round_half_even a b <= k.
Proof.
  intros Hb H. destruct (round_half_even_spec a b Hb) as [[L _] _]. nia.
Qed.

Lemma round_half_even_ge (a b k : Z) :
  0 < b -> k * b <= a -> k <= round_half_even a b.
Proof.
  intros Hb H. destruct (round_half_even_spec a b Hb) as [_ [U _]]. nia.
Qed.

Lemma round_half_even_mono (a b a' b' : Z) :
  0 < b -> 0 < b' -> a * b' <= a' * b ->
  round_half_even a b <= round_half_even a' b'.
Proof.
  intros Hb Hb' H.
  destruct (round_half_even_spec a b Hb) as [[L Le] _].
  destruct (round_half_even_spec a' b' Hb') as [_ [U Ue]].
  set (m := round_half_even a b) in *. set (m' := round_half_even a' b') in *.
  destruct (Z_le_gt_dec m m') as [|G]; [assumption|exfalso].
  assert (C1 : (2 * m - 1) * b * b' <= 2 * a * b') by (apply Z.mul_le_mono_nonneg_r; lia).
  assert (C2 : 2 * a' * b <= (2 * m' + 1) * b' * b) by (apply Z.mul_le_mono_nonneg_r; lia).
  assert (C3 : (2 * m - 1) * (b * b') <= (2 * m' + 1) * (b * b')) by lia.
  assert (0 < b * b') by lia.
  assert (2 * m - 1 <= 2 * m' + 1) by (apply (Z.mul_le_mono_pos_r _ _ (b * b')); assumption).
  assert (E : m = m' + 1) by lia.
  assert (E1 : (2 * m - 1) * b = 2 * a).
  { rewrite E in *. apply Z.le_antisymm; [assumption|].
    apply (Z.mul_le_mono_pos_r _ _ b'); [lia|]. lia. }
  assert (E2 : 2 * a' = (2 * m' + 1) * b').
  { rewrite E in *. apply Z.le_antisymm; [assumption|].
    apply (Z.mul_le_mono_pos_r _ _ b); [lia|]. lia. }
  specialize (Le E1). specialize (Ue E2). rewrite E in Le.
  replace (m' + 1) with (Z.succ m') in Le by lia.
  rewrite Z.even_succ in Le. rewrite <- Z.negb_even in Le. rewrite Ue in Le. discriminate.
Qed.

Lemma pow2_pos (k : Z) : 0 < 2 ^ Z.max 0 k.
Proof. apply Z.pow_pos_nonneg; lia. Qed.

Lemma pow2_split (u k : Z) :
  0 <= k -> 0 <= k + u ->
  2 ^ (k + u) * 2 ^ Z.max 0 (- u) = 2 ^ k * 2 ^ Z.max 0 u.
Proof.
  intros Hk Hku. rewrite <- !Z.pow_add_r by lia. f_equal. lia.
Qed.

Lemma cross_le (X Y P R a b : Z) :
  0 < P -> 0 < R -> 0 < a -> 0 < b -> a * R = b * P ->
  X * P <= Y * R <-> X * a <= Y * b.
Proof.
  intros HP HR Ha Hb E. split; intros H.
  - apply (Z.mul_le_mono_pos_r _ _ P HP).
    assert (H1 : X * P * a <= Y * R * a) by (apply Z.mul_le_mono_nonneg_r; lia).
    assert (H2 : Y * R * a = Y * b * P).
    { rewrite <- !Z.mul_assoc. f_equal. lia. }
    lia.
  - apply (Z.mul_le_mono_pos_r _ _ a Ha).
    assert (H1 : X * a * P <= Y * b * P) by (apply Z.mul_le_mono_nonneg_r; lia).
    assert (H2 : Y * R * a = Y * b * P).
    { rewrite <- !Z.mul_assoc. f_equal. lia. }
    lia.
Qed.

Lemma ple_shift (e k n d : Z) :
  0 <= k -> 0 <= k + e ->
  ple e n d <-> d * 2 ^ (k + e) <= n * 2 ^ k.
Proof.
  intros Hk Hke. unfold ple.
  apply cross_le; try apply pow2_pos; try (apply Z.pow_pos_nonneg; lia).
  apply pow2_split; assumption.
Qed.

Lemma ple_anti (e1 e2 n d : Z) :
  0 < d -> e1 <= e2 -> ple e2 n d -> ple e1 n d.
Proof.
  intros Hd He H.
  apply (ple_shift e2 (Z.abs e1 + Z.abs e2)) in H; try lia.
  apply (ple_shift e1 (Z.abs e1 + Z.abs e2)); try lia.
  eapply Z.le_trans; [|exact H].
  apply Z.mul_le_mono_nonneg_l; [lia|].
  apply Z.pow_le_mono_r; lia.
Qed.

Lemma ple_mono (e n d n' d' : Z) :
  0 < d -> 0 < d' -> n * d' <= n' * d -> ple e n d -> ple e n' d'.
Proof.
  unfold ple. intros Hd Hd' H L.
  pose proof (pow2_pos e). pose proof (pow2_pos (- e)).
  apply (Z.mul_le_mono_pos_r _ _ d Hd).
  assert (d * 2 ^ Z.max 0 e * d' <= n * 2 ^ Z.max 0 (- e) * d')
    by (apply Z.mul_le_mono_nonneg_r; lia).
  assert (n * d' * 2 ^ Z.max 0 (- e) <= n' * d * 2 ^ Z.max 0 (- e))
    by (apply Z.mul_le_mono_nonneg_r; lia).
  lia.
Qed.

Lemma pow2_le_ple (e : Z) (n d : positive) :
  pow2_le e n d = true <-> ple e (Zpos n) (Zpos d).
Proof. unfold pow2_le, ple. apply Z.leb_le. Qed.

Lemma exponent_spec (n d : positive) :
  ple (exponent n d) (Zpos n) (Zpos d) /\ ~ ple (exponent n d + 1) (Zpos n) (Zpos d).
Proof.
  pose proof (Z.log2_spec (Zpos n) ltac:(lia)) as [Ln Un].
  pose proof (Z.log2_spec (Zpos d) ltac:(lia)) as [Ld Ud].
  pose proof (Z.log2_nonneg (Zpos n)) as Hn.
  pose proof (Z.log2_nonneg (Zpos d)) as Hd.
  set (a := Z.log2 (Zpos n)) in *. set (b := Z.log2 (Zpos d)) in *.
  assert (Hi : ~ ple (a - b + 1) (Zpos n) (Zpos d)).
  { intros H. apply (ple_shift _ b) in H; try lia.
    replace (b + (a - b + 1)) with (Z.succ a) in H by lia.
    assert (0 < 2 ^ b) by (apply Z.pow_pos_nonneg; lia).
    assert (0 < 2 ^ Z.succ a) by (apply Z.pow_pos_nonneg; lia).
    nia. }
  assert (Lo : ple (a - b - 1) (Zpos n) (Zpos d)).
  { apply (ple_shift _ (b + 1)); try lia.
    replace (b + 1 + (a - b - 1)) with a by lia.
    replace (b + 1) with (Z.succ b) by lia.
    assert (0 < 2 ^ a) by (apply Z.pow_pos_nonneg; lia).
    nia. }
  unfold exponent. fold a b.
  destruct (pow2_le (a - b) n d) eqn:T.
  - apply pow2_le_ple in T. split; assumption.
  - split; [assumption|]. replace (a - b - 1 + 1) with (a - b) by lia.
    intros H. apply pow2_le_ple in H. congruence.
Qed.

Lemma exponent_mono (n d n' d' : positive) :
  Zpos n * Zpos d' <= Zpos n' * Zpos d -> exponent n d <= exponent n' d'.
Proof.
  intros H.
  destruct (exponent_spec n d) as [L _]. destruct (exponent_spec n' d') as [_ U].
  destruct (Z_le_gt_dec (exponent n d) (exponent n' d')) as [|G]; [assumption|exfalso].
  apply U. apply (ple_mono _ (Zpos n) (Zpos d)); try lia.
  apply (ple_anti _ (exponent n d)); [lia|lia|assumption].
Qed.

(** Order between a scaled integer and a fraction. *)
Lemma scale_le_frac (m u n : Z) (d : positive) :
  (scale m u <= n # d)%Q <-> m * (Zpos d * 2 ^ Z.max 0 u) <= n * 2 ^ Z.max 0 (- u).
Proof.
  unfold scale, Qle. cbn [Qnum Qden].
  rewrite Z2Pos.id by apply pow2_pos.
  split; intros H; lia.
Qed.

Lemma frac_le_scale (m u n : Z) (d : positive) :
  (n # d <= scale m u)%Q <-> n * 2 ^ Z.max 0 (- u) <= m * (Zpos d * 2 ^ Z.max 0 u).
Proof.
  unfold scale, Qle. cbn [Qnum Qden].
  rewrite Z2Pos.id by apply pow2_pos.
  split; intros H; lia.
Qed.

Lemma scale_mono (m m' u : Z) : m <= m' -> (scale m u <= scale m' u)%Q.
Proof.
  intros H. unfold scale, Qle. cbn [Qnum Qden].
  pose proof (pow2_pos u). pose proof (pow2_pos (- u)).
  rewrite Z2Pos.id by assumption.
  apply Z.mul_le_mono_nonneg_r; [lia|]. apply Z.mul_le_mono_nonneg_r; lia.
Qed.

Lemma scale_shift (m u k : Z) : 0 <= k -> (scale (m * 2 ^ k) u == scale m (u + k))%Q.
Proof.
  intros Hk. unfold scale, Qeq. cbn [Qnum Qden].
  rewrite !Z2Pos.id by apply pow2_pos.
  rewrite <- !Z.mul_assoc. f_equal.
  rewrite <- !Z.pow_add_r by lia. f_equal. lia.
Qed.

Lemma nearest_le (n d : positive) (k : Z) :
  let u := Z.max (exponent n d - 52) (-1074) in
  (Zpos n # d <= scale k u)%Q -> (nearest n d <= scale k u)%Q.
Proof.
  intros u H. unfold nearest. fold u. apply scale_mono.
  apply frac_le_scale in H.
  apply round_half_even_le; [pose proof (pow2_pos u); lia|lia].
Qed.

Lemma nearest_ge (n d : positive) (k : Z) :
  let u := Z.max (exponent n d - 52) (-1074) in
  (scale k u <= Zpos n # d)%Q -> (scale k u <= nearest n d)%Q.
Proof.
  intros u H. unfold nearest. fold u. apply scale_mono.
  apply scale_le_frac in H.
  apply round_half_even_ge; [pose proof (pow2_pos u); lia|lia].
Qed.

Lemma ple_scale (e : Z) (n d : positive) :
  ple e (Zpos n) (Zpos d) <-> (scale 1 e <= Zpos n # d)%Q.
Proof. rewrite scale_le_frac. unfold ple. split; lia. Qed.

Lemma nearest_nonneg (n d : positive) : (0 <= nearest n d)%Q.
Proof.
  unfold nearest. set (u := Z.max (exponent n d - 52) (-1074)).
  assert (E : (0 == scale 0 u)%Q) by (unfold scale, Qeq; cbn; lia).
  rewrite E. apply scale_mono.
  apply round_half_even_ge; [pose proof (pow2_pos u); lia|].
  pose proof (pow2_pos (- u)). lia.
Qed.

Lemma scale_exp_mono (e1 e2 : Z) : e1 <= e2 -> (scale 1 e1 <= scale 1 e2)%Q.
Proof.
  intros H.
  assert (E : (scale (1 * 2 ^ (e2 - e1)) e1 == scale 1 e2)%Q).
  { rewrite scale_shift by lia. replace (e1 + (e2 - e1)) with e2 by lia. reflexivity. }
  rewrite <- E. apply scale_mono.
  assert (0 < 2 ^ (e2 - e1)) by (apply Z.pow_pos_nonneg; lia). lia.
Qed.

Lemma nearest_mono (n d n' d' : positive) :
  Zpos n * Zpos d' <= Zpos n' * Zpos d -> (nearest n d <= nearest n' d')%Q.
Proof.
  intros H.
  pose proof (exponent_mono n d n' d' H) as He.
  destruct (exponent_spec n d) as [L U]. destruct (exponent_spec n' d') as [L' U'].
  set (e := exponent n d) in *. set (e' := exponent n' d') in *.
  destruct (Z.eq_dec (Z.max (e - 52) (-1074)) (Z.max (e' - 52) (-1074))) as [E | N].
  - unfold nearest. fold e e'. rewrite <- E. apply scale_mono.
    set (u := Z.max (e - 52) (-1074)).
    pose proof (pow2_pos u). pose proof (pow2_pos (- u)).
    apply round_half_even_mono; try lia.
    replace (Zpos n * 2 ^ Z.max 0 (- u) * (Zpos d' * 2 ^ Z.max 0 u))
      with (Zpos n * Zpos d' * (2 ^ Z.max 0 (- u) * 2 ^ Z.max 0 u)) by ring.
    replace (Zpos n' * 2 ^ Z.max 0 (- u) * (Zpos d * 2 ^ Z.max 0 u))
      with (Zpos n' * Zpos d * (2 ^ Z.max 0 (- u) * 2 ^ Z.max 0 u)) by ring.
    apply Z.mul_le_mono_nonneg_r; lia.
  - (* the larger value starts a higher binade: [2 ^ e'] lies between *)
    assert (Hu' : Z.max (e' - 52) (-1074) = e' - 52) by lia.
    assert (Hlt : e + 1 <= e') by lia.
    apply (Qle_trans _ (scale 1 e')).
    + set (u := Z.max (e - 52) (-1074)).
      assert (E : (scale (1 * 2 ^ (e' - u)) u == scale 1 e')%Q).
      { rewrite scale_shift by lia. replace (u + (e' - u)) with e' by lia. reflexivity. }
      rewrite <- E. apply (nearest_le n d). fold e u. rewrite E.
      apply (Qle_trans _ (scale 1 (e + 1))); [|apply scale_exp_mono; lia].
      apply Qnot_lt_le. intros C. apply U. apply ple_scale.
      apply Qlt_le_weak. exact C.
    + assert (E : (scale (1 * 2 ^ 52) (e' - 52) == scale 1 e')%Q).
      { rewrite scale_shift by lia. replace (e' - 52 + 52) with e' by lia. reflexivity. }
      rewrite <- E. pose proof (nearest_ge n' d' (1 * 2 ^ 52)) as G. cbv zeta in G.
      fold e' in G. rewrite Hu' in G. apply G. rewrite E. apply ple_scale. exact L'.
Qed.

Lemma double_nonneg (q : Q) : (0 <= q)%Q -> (0 <= double q)%Q.
Proof.
  destruct q as [[|n|n] d]; unfold double; cbn [Qnum Qden]; intros H.
  - apply Qle_refl.
  - apply nearest_nonneg.
  - exfalso. unfold Qle in H. cbn in H. lia.
Qed.

Lemma double_mono (p q : Q) : (p <= q)%Q -> (double p <= double q)%Q.
Proof.
  destruct p as [[|n|n] d], q as [[|n'|n'] d']; unfold double; cbn [Qnum Qden];
    unfold Qle at 1; cbn [Qnum Qden]; intros H; try lia.
  - apply Qle_refl.
  - apply nearest_nonneg.
  - apply nearest_mono. lia.
  - apply (Qopp_le_compat 0). apply nearest_nonneg.
  - apply (Qle_trans _ 0); [apply (Qopp_le_compat 0)|]; apply nearest_nonneg.
  - apply Qopp_le_compat. apply nearest_mono. lia.
Qed.

(** An integer of at most 53 bits is a double. *)
Lemma double_inject_Z (k : Z) : Z.abs k < 2 ^ 53 -> (double (inject_Z k) == inject_Z k)%Q.
Proof.
  assert (P : forall n : positive, Zpos n < 2 ^ 53 -> (nearest n 1 == inject_Z (Zpos n))%Q).
  { intros n Hn.
    destruct (exponent_spec n 1) as [L U]. set (e := exponent n 1) in *.
    assert (He : e <= 52).
    { destruct (Z_le_gt_dec e 52) as [|G]; [assumption|exfalso].
      apply (ple_anti 53) in L; [|lia|lia]. unfold ple in L.
      rewrite (Z.max_r 0 53), (Z.max_l 0 (- (53))) in L by lia.
      change (2 ^ 0) with 1 in L. lia. }
    set (u := Z.max (e - 52) (-1074)).
    assert (Hu : u <= 0) by lia.
    assert (E : (scale (Zpos n * 2 ^ (- u)) u == inject_Z (Zpos n))%Q).
    { rewrite scale_shift by lia. replace (u + - u) with 0 by lia.
      unfold scale, Qeq. cbn [Qnum Qden inject_Z].
      change (Z.max 0 (- 0)) with 0. change (Z.max 0 0) with 0.
      change (2 ^ 0) with 1. change (Z.pos (Z.to_pos 1)) with 1. lia. }
    apply Qle_antisym.
    - rewrite <- E. apply (nearest_le n 1). fold e u. rewrite E. apply Qle_refl.
    - rewrite <- E at 1. apply (nearest_ge n 1). fold e u. rewrite E. apply Qle_refl. }
  destruct k as [|n|n]; intros H; unfold double; cbn [inject_Z Qnum Qden].
  - reflexivity.
  - apply P. lia.
  - rewrite P by lia. reflexivity.
Qed.

Lemma double_unit_interval (q : Q) : (0 <= q <= 1)%Q -> (0 <= double q <= 1)%Q.
Proof.
  intros [H0 H1]. split; [by apply double_nonneg|].
  rewrite <- (double_inject_Z 1) by (by vm_compute). by apply double_mono.
Qed.

End Doubles.

(** ** The gesture classifier *)

Section Classifier.
Import Gesture Hand.

Lemma calculate_distance_ok (p q : Landmark) :
  calculate_distance p q = Ok (Sqrt ((x p - x q) ^ 2 + (y p - y q) ^ 2)).
Proof. unfold calculate_distance, math_sqrt. by rewrite sum_squares_nonneg. Qed.

(** Every position up to 20 is present in a list of 21 or more. *)
Lemma full_hand_inv (lm : list Landmark) :
  (21 <= length lm)%nat ->
  exists l0 l1 l2 l3 l4 l5 l6 l7 l8 l9 l10 l11 l12 l13 l14 l15 l16 l17 l18 l19 l20 rest,
    lm = l0 :: l1 :: l2 :: l3 :: l4 :: l5 :: l6 :: l7 :: l8 :: l9 :: l10 :: l11
         :: l12 :: l13 :: l14 :: l15 :: l16 :: l17 :: l18 :: l19 :: l20 :: rest.
Proof.
  intros H.
  do 21 (destruct lm as [|? lm]; [simpl in H; lia|]).
  repeat eexists.
Qed.

(** On a full hand no lookup fails, and the answer is the decision on the
    six tests. *)
Lemma recognize_gesture_full (lm : list Landmark) :
  (21 <= length lm)%nat ->
  recognize_gesture lm =
    Ok (decide_gesture (thumb_extended lm) (index_extended lm) (middle_extended lm)
          (ring_extended lm) (pinky_extended lm) (pinch lm)).
Proof.
  intros H. destruct (full_hand_inv lm H) as
    (l0&l1&l2&l3&l4&l5&l6&l7&l8&l9&l10&l11&l12&l13&l14&l15&l16&l17&l18&l19&l20&rest&->).
  unfold recognize_gesture, thumb_extended, index_extended, middle_extended,
    ring_extended, pinky_extended, pinch, pinch_sq, finger_extended, extended,
    any_extended, all_extended, all_not_extended, extended_at, getitem.
  cbn [lookup list_lookup bind Nat.sub].
  rewrite calculate_distance_ok.
  unfold elif, and_then, not_, root_ltb, decide_gesture. cbn [bind].
  change (Qltb 0 (5 # 100)) with true. cbn [andb].
  destruct (is_finger_extended l4 l3), (is_finger_extended l8 l6),
    (is_finger_extended l12 l10), (is_finger_extended l16 l14),
    (is_finger_extended l20 l18); cbn [bind negb andb orb]; try reflexivity;
    destruct (Qltb _ _); reflexivity.
Qed.

Lemma decide_gesture_label (thumb index middle ring pinky close : bool) :
  decide_gesture thumb index middle ring pinky close ∈ labels.
Proof.
  apply list_elem_of_In.
  destruct thumb, index, middle, ring, pinky, close; cbn; tauto.
Qed.

Lemma recognize_gesture_short (lm : list Landmark) :
  (0 < length lm < 21)%nat -> recognize_gesture lm = Raise IndexError.
Proof.
  intros [H0 H21].
  destruct lm as [|? lm]; [simpl in H0; lia|].
  do 20 (destruct lm as [|? lm]; [reflexivity|]).
  simpl in H21; lia.
Qed.

(** C1, as stated, fails: five landmarks are a malformed hand (fewer
    than 21 points), and [landmarks[8]] raises [IndexError] instead of
    the classifier answering "unknown". *)
Lemma recognize_gesture_five_points_raises :
  length (take 5 (sample_hand false false false false false)) = 5%nat /\
  recognize_gesture (take 5 (sample_hand false false false false false))
    = Raise IndexError.
Proof. split; reflexivity. Qed.

(** C1, amended: the only guard is the emptiness test of line 142.  An
    empty landmark sequence is answered with "unknown"; a non-empty one
    with fewer than 21 points raises [IndexError] at the first missing
    position; one with 21 points or more is classified without raising,
    and the answer is one of the nine labels. *)
Theorem recognize_gesture_by_length (lm : list Landmark) :
  recognize_gesture lm =
    (if decide (length lm = 0%nat) then Ok "unknown"
     else if decide (length lm < 21)%nat then Raise IndexError
     else Ok (decide_gesture (thumb_extended lm) (index_extended lm)
                (middle_extended lm) (ring_extended lm) (pinky_extended lm)
                (pinch lm)))
  /\ decide_gesture (thumb_extended lm) (index_extended lm) (middle_extended lm)
       (ring_extended lm) (pinky_extended lm) (pinch lm) ∈ labels.
Proof.
  split; [|apply decide_gesture_label].
  destruct (decide (length lm = 0%nat)) as [E|E].
  - by destruct lm.
  - destruct (decide (length lm < 21)%nat).
    + apply recognize_gesture_short. lia.
    + apply recognize_gesture_full. lia.
Qed.

(** C3: on a full hand whose index, middle, ring and pinky predicates
    are false the answer is read off the thumb predicate alone,
    "thumbs_up" when it holds and "thumbs_down" when it does not; it is
    therefore one of fist / thumbs_up / thumbs_down and never "unknown".
    With all five predicates false the answer is "thumbs_down". *)
Theorem closed_hand_gesture (lm : list Landmark) :
  length lm = 21%nat ->
  index_extended lm = false ->
  middle_extended lm = false ->
  ring_extended lm = false ->
  pinky_extended lm = false ->
  exists g,
    recognize_gesture lm = Ok g /\
    g ∈ ["fist"; "thumbs_up"; "thumbs_down"] /\
    g <> "unknown" /\
    g = (if thumb_extended lm then "thumbs_up" else "thumbs_down") /\
    (thumb_extended lm = false -> g = "thumbs_down").
Proof.
  intros L Hi Hm Hr Hp.
  rewrite recognize_gesture_full by lia.
  rewrite Hi, Hm, Hr, Hp.
  destruct (thumb_extended lm); cbn; eexists; (split; [reflexivity|]);
    (split; [apply list_elem_of_In; cbn; tauto|]); by repeat split.
Qed.

Lemma closed_hand_gesture_witness :
  exists g,
    recognize_gesture (sample_hand false false false false false) = Ok g /\
    g ∈ ["fist"; "thumbs_up"; "thumbs_down"] /\
    g <> "unknown" /\
    g = (if thumb_extended (sample_hand false false false false false)
         then "thumbs_up" else "thumbs_down") /\
    (thumb_extended (sample_hand false false false false false) = false ->
     g = "thumbs_down").
Proof.
  apply (closed_hand_gesture (sample_hand false false false false false));
    reflexivity.
Defined.

(** C10: a full hand is never answered with "fist".  When none of
    index, middle, ring and pinky is extended, the thumb predicate is
    either true or false, so the thumbs_up or the thumbs_down branch
    returns before the fist branch is reached. *)
Theorem fist_unreachable (lm : list Landmark) :
  length lm = 21%nat ->
  recognize_gesture lm <> Ok "fist" /\
  (index_extended lm = false -> middle_extended lm = false ->
   ring_extended lm = false -> pinky_extended lm = false ->
   recognize_gesture lm = Ok "thumbs_up" \/ recognize_gesture lm = Ok "thumbs_down").
Proof.
  intros L. rewrite recognize_gesture_full by lia. split.
  - destruct (thumb_extended lm), (index_extended lm), (middle_extended lm),
      (ring_extended lm), (pinky_extended lm), (pinch lm); cbn; discriminate.
  - intros -> -> -> ->. destruct (thumb_extended lm); cbn; auto.
Qed.

Lemma fist_unreachable_witness :
  recognize_gesture (sample_hand true false false false false) <> Ok "fist" /\
  (recognize_gesture (sample_hand true false false false false) = Ok "thumbs_up" \/
   recognize_gesture (sample_hand true false false false false) = Ok "thumbs_down").
Proof.
  destruct (fist_unreachable (sample_hand true false false false false) eq_refl)
    as [H1 H2].
  split; [exact H1 | apply H2; reflexivity].
Defined.

(** C9, as stated, fails: with the thumb tip on the index tip and index,
    middle, ring and pinky all extended, the open_palm branch (line 175)
    returns before the pinch test (line 184) is reached. *)
Lemma pinch_with_index_extended_is_open_palm :
  length (sample_hand true true true true true) = 21%nat /\
  (pinch_sq (sample_hand true true true true true) < (5 # 100) ^ 2)%Q /\
  middle_extended (sample_hand true true true true true) = true /\
  ring_extended (sample_hand true true true true true) = true /\
  pinky_extended (sample_hand true true true true true) = true /\
  recognize_gesture (sample_hand true true true true true) = Ok "open_palm".
Proof. repeat split; reflexivity. Qed.

(** The pinch test of the model away from its threshold. *)
Lemma pinch_near (lm : list Landmark) :
  (pinch_sq lm <= (49999999 # 1000000000) ^ 2)%Q -> pinch lm = true.
Proof.
  intros H. apply Qltb_lt. eapply Qle_lt_trans; [exact H|]. reflexivity.
Qed.

Lemma pinch_far (lm : list Landmark) :
  ((50000001 # 1000000000) ^ 2 <= pinch_sq lm)%Q -> pinch lm = false.
Proof.
  intros H. apply Qltb_ge. eapply Qle_trans; [|exact H]. by vm_compute.
Qed.

(** C9, amended: on a full hand whose thumb tip is at most 0.049999999
    from the index tip in the plane, whose middle, ring and pinky are
    extended and whose index is not extended, the answer is "ok".  The
    bound leaves a margin of a billionth below the threshold 0.05 of
    line 184, which the code compares with a distance computed in
    doubles. *)
Theorem pinch_gesture_ok (lm : list Landmark) :
  length lm = 21%nat ->
  (pinch_sq lm <= (49999999 # 1000000000) ^ 2)%Q ->
  index_extended lm = false ->
  middle_extended lm = true ->
  ring_extended lm = true ->
  pinky_extended lm = true ->
  recognize_gesture lm = Ok "ok".
Proof.
  intros L Hd Hi Hm Hr Hp.
  rewrite recognize_gesture_full by lia.
  rewrite (pinch_near lm Hd).
  rewrite Hi, Hm, Hr, Hp. by destruct (thumb_extended lm).
Qed.

Lemma pinch_gesture_ok_witness :
  recognize_gesture (sample_hand false false true true true) = Ok "ok".
Proof.
  apply (pinch_gesture_ok (sample_hand false false true true true));
    first [reflexivity | by vm_compute].
Defined.

End Classifier.

(** ** Telemetry *)

Section TelemetryFacts.
Import Telemetry.

(** [int] rounds toward zero: the floor of a non-negative float, the
    ceiling of a negative one. *)
Lemma int_nonneg (q : Q) : (0 <= q)%Q -> int q = Qfloor q.
Proof.
  destruct q as [n d]. unfold Qle, int, Qfloor. cbn. intros H.
  apply Z.quot_div_nonneg; lia.
Qed.

Lemma int_neg (q : Q) : (q < 0)%Q -> int q = Qceiling q.
Proof.
  destruct q as [n d]. unfold Qlt, int, Qceiling, Qfloor. cbn. intros H.
  rewrite <- (Z.opp_involutive n) at 1.
  rewrite Z.quot_opp_l by lia.
  f_equal. apply Z.quot_div_nonneg; lia.
Qed.

Lemma int_proper (p q : Q) : (p == q)%Q -> int p = int q.
Proof.
  intros E. destruct (Qlt_le_dec p 0) as [H|H].
  - rewrite !int_neg; [by rewrite E| by rewrite <- E | done].
  - rewrite !int_nonneg; [by rewrite E| by rewrite <- E | done].
Qed.

Lemma int_mono (p q : Q) : (p <= q)%Q -> int p <= int q.
Proof.
  intros H. destruct (Qlt_le_dec p 0) as [Hp|Hp], (Qlt_le_dec q 0) as [Hq|Hq].
  - rewrite !int_neg by done. by apply Qceiling_resp_le.
  - rewrite int_neg, int_nonneg by done.
    transitivity 0.
    + change 0 with (Qceiling 0). apply Qceiling_resp_le. by apply Qlt_le_weak.
    + change 0 with (Qfloor 0). by apply Qfloor_resp_le.
  - exfalso. apply (Qlt_irrefl 0).
    eapply Qle_lt_trans; [exact Hp|]. eapply Qle_lt_trans; [exact H|exact Hq].
  - rewrite !int_nonneg by done. by apply Qfloor_resp_le.
Qed.

Lemma int_inject_Z (k : Z) : int (inject_Z k) = k.
Proof. unfold int. cbn. apply Z.quot_1_r. Qed.

Lemma int_between (lo hi : Z) (v : Q) :
  (inject_Z lo <= v)%Q -> (v <= inject_Z hi)%Q -> lo <= int v <= hi.
Proof.
  intros Hlo Hhi. split.
  - rewrite <- (int_inject_Z lo). by apply int_mono.
  - rewrite <- (int_inject_Z hi). by apply int_mono.
Qed.

Lemma battery_proper (p q : Q) : (p == q)%Q -> battery p = battery q.
Proof.
  intros E. unfold battery. f_equal. f_equal. apply int_proper. by rewrite E.
Qed.

Lemma battery_mono (p q : Q) : (p <= q)%Q -> battery q <= battery p.
Proof.
  intros H. unfold battery.
  assert (int (p / (10 # 1)) <= int (q / (10 # 1))); [|lia].
  apply int_mono. unfold Qdiv. apply Qmult_le_compat_r; [done|].
  by vm_compute.
Qed.

(** The tick stores line 118's value for the elapsed time it measured. *)
Lemma update_battery_level (self : HUD) (current_time now cpu mem : Q) (rng : Rng.state) :
  battery_level (system_status
    (fst (update_system_metrics self current_time now cpu mem rng)))
  = battery (current_time - system_boot_time self).
Proof.
  unfold update_system_metrics.
  destruct (resample _ _ _ rng) as [net rng1].
  destruct (resample _ _ _ rng1) as [threat rng2]. reflexivity.
Qed.

(** C5: after a telemetry tick taken [t >= 0] seconds after the start,
    [battery_level] is [max(10, 100 - floor(t / 10))]; it is at least 10, a
    later tick never shows a higher level, and at [t = 50] it is 95. *)
Theorem battery_level_decay (self : HUD) (now cpu mem : Q) (rng : Rng.state) (t : Q) :
  (0 <= t)%Q ->
  let level (t : Q) :=
    battery_level (system_status
      (fst (update_system_metrics self (system_boot_time self + t) now cpu mem rng))) in
  level t = Z.max 10 (100 - Qfloor (t / (10 # 1))) /\
  10 <= level t /\
  (forall t' now' cpu' mem' rng' self',
      (t <= t')%Q ->
      battery_level (system_status
        (fst (update_system_metrics self' (system_boot_time self' + t') now' cpu' mem' rng')))
      <= level t) /\
  ((t == 50 # 1)%Q -> level t = 95).
Proof.
  intros Ht level.
  assert (forall s u, (system_boot_time s + u - system_boot_time s == u)%Q) as E
    by (intros; ring).
  assert (level t = battery t) as Hl.
  { unfold level. rewrite update_battery_level. apply battery_proper, E. }
  rewrite Hl. repeat split.
  - unfold battery. rewrite int_nonneg; [done|].
    unfold Qdiv. apply Qmult_le_0_compat; [done | by vm_compute].
  - unfold battery. lia.
  - intros t' now' cpu' mem' rng' self' Hle.
    rewrite update_battery_level, (battery_proper _ t') by apply E.
    by apply battery_mono.
  - intros E50. by rewrite (battery_proper _ _ E50).
Qed.

(** Before the start ([t < 0], a clock set back) [int] rounds up where
    [floor] rounds down: the level read is 100, not 101. *)
Example battery_before_start :
  battery (- (5 # 1)) = 100 /\ Z.max 10 (100 - Qfloor (- (5 # 1) / (10 # 1))) = 101.
Proof. split; reflexivity. Qed.

Lemma battery_level_decay_witness :
  battery_level (system_status
    (fst (update_system_metrics (init 0 0) (0 + (50 # 1)) 0 0 0
            {| Rng.tape := fun _ => 0%N; Rng.cursor := 0 |}))) = 95.
Proof.
  refine (proj2 (proj2 (proj2
    (battery_level_decay (init 0 0) 0 0 0
       {| Rng.tape := fun _ => 0%N; Rng.cursor := 0 |} (50 # 1) _))) _);
    [by vm_compute | reflexivity].
Defined.

End TelemetryFacts.

(** ** Radar contacts *)

Section RadarFacts.
Import Radar.

(** Unfold one spawn down to its draws, leaving arithmetic alone. *)
Ltac open_spawn :=
  cbv beta iota zeta delta
    [spawn Rng.random Rng.randint Rng.choice Rng.next Rng.tape Rng.cursor fst snd].

Lemma randint_range (a b : Z) (rng : Rng.state) :
  a <= b -> a <= fst (Rng.randint a b rng) <= b.
Proof.
  intros H. unfold Rng.randint. cbn.
  pose proof (Z.mod_pos_bound (Z.of_N (Rng.tape rng (Rng.cursor rng))) (b - a + 1)).
  lia.
Qed.

Lemma list_remove_length (v : Blip) (l : list Blip) :
  (length (list_remove v l) <= length l)%nat.
Proof.
  induction l as [|b l IH]; cbn; [lia|].
  destruct (decide (b = v)); cbn; lia.
Qed.

Lemma age_loop_length (visited pending : list Blip) :
  (length (age_loop visited pending) <= length visited + length pending)%nat.
Proof.
  revert visited. induction pending as [|blip rest IH]; intros visited; cbn; [lia|].
  destruct (lifetime blip - 1 <=? 0).
  - etransitivity; [apply IH|].
    pose proof (list_remove_length (age blip) (visited ++ [age blip])) as H.
    rewrite length_app in H. cbn in H. lia.
  - etransitivity; [apply IH|]. rewrite length_app. cbn. lia.
Qed.

(** [remove] finds the contact it was called for: the visited contacts
    before it are still alive, so none of them equals an expired one. *)
Lemma list_remove_last (v : Blip) (visited : list Blip) :
  Forall (fun b => b <> v) visited -> list_remove v (visited ++ [v]) = visited.
Proof.
  induction 1 as [|b l Hb _ IH]; cbn.
  - by destruct (decide (v = v)).
  - destruct (decide (b = v)); [done|]. by rewrite IH.
Qed.

(** The loop keeps, in order, the contacts whose lifetime is still
    positive after the decrement, and drops the others. *)
Lemma age_loop_filter (visited pending : list Blip) :
  Forall (fun b => 0 < lifetime b) visited ->
  age_loop visited pending
  = visited ++ filter (fun b => 0 < lifetime b) (map age pending).
Proof.
  revert visited. induction pending as [|blip rest IH]; intros visited Hv.
  - cbn. by rewrite app_nil_r.
  - cbn [age_loop map].
    destruct (Z.leb_spec (lifetime (age blip)) 0) as [Hd|Hd].
    + rewrite list_remove_last.
      * rewrite IH by done. rewrite filter_cons_False; [done|]. cbn in *. lia.
      * eapply Forall_impl; [exact Hv|]. cbn. intros b Hb ->. cbn in *. lia.
    + rewrite IH.
      * rewrite filter_cons_True by (cbn in *; lia). by rewrite <- app_assoc.
      * apply Forall_app. split; [done|]. constructor; [cbn in *; lia|constructor].
Qed.

Lemma spawn_length (blips : list Blip) (rng : Rng.state) :
  (length blips <= 8)%nat -> (length (fst (spawn blips rng)) <= 8)%nat.
Proof.
  intros H. destruct rng as [w c]. open_spawn.
  destruct (Nat.ltb_spec (length blips) 8) as [Hlt|Hge];
    destruct (Qltb _ _); cbn [andb]; try lia.
  rewrite length_app. cbn [length]. lia.
Qed.

(** At the cap the spawn consumes its one [random.random()] draw and
    leaves the list as it is. *)
Lemma spawn_full (blips : list Blip) (rng : Rng.state) :
  (8 <= length blips)%nat ->
  spawn blips rng = (blips, snd (Rng.random rng)).
Proof.
  intros H. destruct rng as [w c]. open_spawn.
  destruct (Nat.ltb_spec (length blips) 8); [lia|].
  by rewrite andb_false_r.
Qed.

(** What a spawn appends: both ends of each [randint] range can occur. *)
Lemma spawn_ranges (blips : list Blip) (rng : Rng.state) :
  fst (spawn blips rng) = blips \/
  exists b, fst (spawn blips rng) = blips ++ [b] /\
    0 <= angle b <= 360 /\
    20 <= distance b <= radar_size / 2 - 30 /\
    type b ∈ blip_types /\
    50 <= lifetime b <= 200.
Proof.
  destruct rng as [w c]. open_spawn.
  destruct (Qltb _ _ && _); [|by left].
  right. eexists. split; [reflexivity|]. cbn [angle distance type lifetime].
  change (radar_size / 2 - 30) with 80.
  repeat split;
    try match goal with
        | |- context [?a mod ?b] => pose proof (Z.mod_pos_bound a b); lia
        end.
  apply list_elem_of_In, nth_In. apply Nat.mod_upper_bound. cbn. lia.
Qed.

Lemma draw_radar_display_blips (self : HUD) (rng : Rng.state) (frame : Frame) :
  radar_blips (snd (fst (draw_radar_display self rng frame)))
  = age_loop [] (fst (spawn (radar_blips self) rng)).
Proof.
  unfold draw_radar_display. by destruct (spawn _ rng).
Qed.

Lemma draw_radar_display_capped (self : HUD) (rng : Rng.state) (frame : Frame) :
  (length (radar_blips self) <= 8)%nat ->
  (length (radar_blips (snd (fst (draw_radar_display self rng frame)))) <= 8)%nat.
Proof.
  intros H. rewrite draw_radar_display_blips.
  etransitivity; [apply age_loop_length|]. cbn. by apply spawn_length.
Qed.

Lemma ticks_capped (n : nat) (self : HUD) (rng : Rng.state) (frame : Frame) :
  (length (radar_blips self) <= 8)%nat ->
  (length (radar_blips (snd (fst (ticks n self rng frame)))) <= 8)%nat.
Proof.
  revert self rng frame. induction n as [|n IH]; intros self rng frame H; cbn; [done|].
  pose proof (draw_radar_display_capped self rng frame H) as H'.
  destruct (draw_radar_display self rng frame) as [[frame' self'] rng'].
  by apply IH.
Qed.

(** The other steps of a pass leave the contacts alone, and the reset key
    empties them. *)
Lemma update_system_metrics_blips (self : HUD) (t now cpu mem : Q) (rng : Rng.state) :
  radar_blips (fst (Telemetry.update_system_metrics self t now cpu mem rng))
  = radar_blips self.
Proof.
  unfold Telemetry.update_system_metrics.
  destruct (Telemetry.resample _ _ _ rng) as [net rng1].
  by destruct (Telemetry.resample _ _ _ rng1) as [threat rng2].
Qed.

Lemma draw_vital_signs_blips (self : HUD) (rng : Rng.state) (frame : Frame) :
  radar_blips (snd (fst (Widgets.draw_vital_signs self rng frame))) = radar_blips self.
Proof.
  unfold Widgets.draw_vital_signs. by destruct (Widgets.vital_draws rng).
Qed.

Lemma on_key_capped (self : HUD) (rng : Rng.state) (frame : Frame) (key : Z) (o : Loop.outcome) :
  (length (radar_blips self) <= 8)%nat ->
  Loop.on_key self rng frame key = Ok o ->
  (length (radar_blips (Loop.state_of o)) <= 8)%nat.
Proof.
  intros H. unfold Loop.on_key.
  destruct (key =? 113); [by intros [= <-]|].
  destruct (key =? 109).
  - unfold Loop.cycle_mode.
    destruct (Loop.index _ _) as [k|]; [|done]. cbn.
    destruct (getitem _ _) as [mode|]; [|done]. by intros [= <-].
  - destruct (key =? 114); intros [= <-]; cbn; [lia|done].
Qed.

(** Every registered widget keeps the cap. *)
Lemma widget_capped (name : string) (draw : widget)
    (self : HUD) (rng : Rng.state) (clock : Clock) (frame : Frame) :
  (name, draw) ∈ hud_elements ->
  (length (radar_blips self) <= 8)%nat ->
  (length (radar_blips (snd (fst (draw self rng clock frame)))) <= 8)%nat.
Proof.
  intros Hin H. unfold hud_elements in Hin.
  repeat (apply elem_of_cons in Hin as [[= -> ->]|Hin]);
    [..|by apply elem_of_nil in Hin];
    first [ by apply draw_radar_display_capped
          | by rewrite draw_vital_signs_blips
          | done ].
Qed.

Lemma draw_elements_capped (elements : list (string * widget))
    (self : HUD) (rng : Rng.state) (clock : Clock) (frame : Frame)
    (frame' : Frame) (self' : HUD) (rng' : Rng.state) :
  elements ⊆ hud_elements ->
  (length (radar_blips self) <= 8)%nat ->
  Loop.draw_elements elements self rng clock frame = Ok (frame', self', rng') ->
  (length (radar_blips self') <= 8)%nat.
Proof.
  revert self rng frame.
  induction elements as [|[name draw] rest IH]; intros self rng frame Hsub H;
    cbn [Loop.draw_elements].
  - by intros [= _ <- _].
  - unfold Loop.call. destruct (Numpy.blit_fits name frame); [|done]. cbn [bind].
    pose proof (widget_capped name draw self rng clock frame) as Hw.
    destruct (draw self rng clock frame) as [[frame1 self1] rng1].
    apply IH.
    + intros e He. apply Hsub. by right.
    + apply Hw; [|done]. apply Hsub. by left.
Qed.

Lemma iteration_capped (self : HUD) (rng : Rng.state) (i : Loop.Input) (o : Loop.outcome) :
  (length (radar_blips self) <= 8)%nat ->
  Loop.iteration self rng i = Ok o ->
  (length (radar_blips (Loop.state_of o)) <= 8)%nat.
Proof.
  intros H. unfold Loop.iteration.
  destruct (Loop.ret i); cbn [negb]; [|by intros [= <-]].
  pose proof (update_system_metrics_blips (set_frame_count (frame_count self + 1) self)
    (Loop.current_time i) (Loop.metrics_now i) (Loop.cpu_percent i)
    (Loop.memory_percent i) rng) as Hm.
  destruct (Telemetry.update_system_metrics _ _ _ _ _ rng) as [self1 rng1].
  cbn in Hm.
  destruct (Hands.process_hands _ _) as [fg|]; [|done]. cbn [bind].
  pose proof (draw_elements_capped hud_elements self1 rng1 (Loop.clock i) fg.1) as Hd.
  destruct (Loop.draw_elements hud_elements self1 rng1 _ _) as [[[frame2 self2] rng2]|];
    [|done].
  cbn [bind]. apply on_key_capped. eapply Hd; [done| |done]. by rewrite Hm.
Qed.

Lemma run_capped (inputs : list Loop.Input) (self : HUD) (rng : Rng.state)
    (self' : HUD) (rng' : Rng.state) :
  (length (radar_blips self) <= 8)%nat ->
  Loop.run self rng inputs = Ok (self', rng') ->
  (length (radar_blips self') <= 8)%nat.
Proof.
  revert self rng. induction inputs as [|i rest IH]; intros self rng H; cbn.
  - by intros [= <- _].
  - pose proof (iteration_capped self rng i) as Hi.
    destruct (Loop.iteration self rng i) as [o|]; [|done]. cbn.
    specialize (Hi o H eq_refl).
    destruct o as [self1 rng1 frame1|self1 rng1]; cbn in Hi.
    + by apply IH.
    + by intros [= <- _].
Qed.

(** C6: from an empty contact set, any number of radar ticks leaves at
    most 8 contacts, and so does the main loop after any passes (with
    their key presses); a spawn at the cap has no error path and returns
    the list unchanged, having used only its [random.random()] draw. *)
Theorem radar_contacts_capped (self : HUD) :
  radar_blips self = [] ->
  (forall n rng frame,
      (length (radar_blips (snd (fst (ticks n self rng frame)))) <= 8)%nat) /\
  (forall rng inputs self' rng',
      Loop.run self rng inputs = Ok (self', rng') ->
      (length (radar_blips self') <= 8)%nat) /\
  (forall blips rng,
      (8 <= length blips)%nat ->
      spawn blips rng = (blips, snd (Rng.random rng))).
Proof.
  intros E. repeat split.
  - intros. apply ticks_capped. rewrite E. cbn. lia.
  - intros rng inputs self' rng'. apply run_capped. rewrite E. cbn. lia.
  - apply spawn_full.
Qed.

Lemma radar_contacts_capped_witness :
  (length (radar_blips (snd (fst
     (ticks 20 (init 0 0) (Rng.of_list [])
        {| height := 720; width := 1280; layers := [] |})))) <= 8)%nat /\
  spawn (replicate 8 {| angle := 0; distance := 20; type := "friend"; lifetime := 50 |})
        (Rng.of_list [])
  = (replicate 8 {| angle := 0; distance := 20; type := "friend"; lifetime := 50 |},
     snd (Rng.random (Rng.of_list []))).
Proof.
  destruct (radar_contacts_capped (init 0 0) eq_refl) as (Hticks & _ & Hfull).
  split; [apply Hticks | apply Hfull; cbn; lia].
Defined.

(** With a source that always spawns (every draw zero), twenty ticks fill
    the radar to exactly eight contacts. *)
Example ticks_fill_to_cap :
  length (radar_blips (snd (fst
     (ticks 20 (init 0 0) (Rng.of_list [])
        {| height := 720; width := 1280; layers := [] |})))) = 8%nat.
Proof. by vm_compute. Qed.

(** C7 at its failing input: when [random.randint(0, 360)] returns its
    upper end, the contact appended has angle 360, outside [0, 360). *)
Theorem spawn_angle_360 :
  fst (spawn [] (Rng.of_list [0; 360]%N))
  = [ {| angle := 360; distance := 20; type := "friend"; lifetime := 50 |} ].
Proof. by vm_compute. Qed.

End RadarFacts.

(** ** The progress bar *)

Section ProgressBar.
Import Cv2.

Lemma pixel_paint (inside : Z -> Z -> bool) (color : Color) (img : Image) (px py : Z) :
  pixel (paint inside color img) px py
  = (fun old => if inside px py then color else old) <$> pixel img px py.
Proof.
  unfold pixel, paint.
  destruct ((px <? 0) || (py <? 0)) eqn:E; [done|].
  apply orb_false_iff in E as [Hx Hy]. apply Z.ltb_ge in Hx, Hy.
  rewrite list_lookup_imap.
  destruct (img !! Z.to_nat py) as [row|];
    cbn [fmap option_fmap option_map]; [|done].
  rewrite list_lookup_imap. by rewrite !Z2Nat.id.
Qed.

Lemma pixel_rectangle (img : Image) (pt1 pt2 : Z * Z) (color : Color) (thickness px py : Z) :
  pixel (rectangle img pt1 pt2 color thickness) px py
  = (fun old =>
       if (if thickness <? 0 then in_box pt1 pt2 px py else on_edge pt1 pt2 px py)
       then color else old) <$> pixel img px py.
Proof.
  unfold rectangle. destruct (thickness <? 0); apply pixel_paint.
Qed.

(** Every pixel of the result: the outline on the track's edge, the fill
    over the dark track, the old pixel elsewhere. *)
Lemma pixel_draw_progress_bar (frame : Image) (x y width height : Z) (progress : Q)
    (px py : Z) :
  pixel (draw_progress_bar frame (x, y) width height progress) px py
  = (fun old =>
       if on_edge (x, y) (x + width, y + height) px py then (0, 150, 0)
       else if in_box (x, y) (x + fill_width width progress, y + height) px py
            then (0, 255, 0)
       else if in_box (x, y) (x + width, y + height) px py then (0, 30, 0)
       else old) <$> pixel frame px py.
Proof.
  unfold draw_progress_bar. rewrite !pixel_rectangle.
  destruct (pixel frame px py) as [old|]; cbn [fmap option_fmap option_map]; [|done].
  change (-1 <? 0) with true. change (1 <? 0) with false. cbv beta iota.
  by repeat destruct (_ : bool).
Qed.

Lemma inject_Z_nonneg (k : Z) : 0 <= k -> (0 <= inject_Z k)%Q.
Proof. intros H. change 0%Q with (inject_Z 0). by rewrite <- Zle_Qle. Qed.

(** The fill never runs backwards for a non-negative width and fraction,
    and grows with the fraction. *)
Lemma fill_width_nonneg (width : Z) (progress : Q) :
  0 <= width -> (0 <= progress)%Q -> 0 <= fill_width width progress.
Proof.
  intros Hw Hp. unfold fill_width. change 0 with (int 0). apply int_mono.
  apply double_nonneg. apply Qmult_le_0_compat; [|done].
  by apply double_nonneg, inject_Z_nonneg.
Qed.

Lemma fill_width_mono (width : Z) (p q : Q) :
  0 <= width -> (p <= q)%Q -> fill_width width p <= fill_width width q.
Proof.
  intros Hw Hpq. unfold fill_width. apply int_mono, double_mono.
  rewrite !(Qmult_comm (double (inject_Z width))).
  apply Qmult_le_compat_r; [done|]. by apply double_nonneg, inject_Z_nonneg.
Qed.

(** For a fraction in [0, 1] the fill ends inside the track. *)
Lemma fill_width_bounds (width : Z) (progress : Q) :
  0 <= width < 2 ^ 53 -> (0 <= progress <= 1)%Q ->
  0 <= fill_width width progress <= width.
Proof.
  intros Hw [H0 H1]. split; [apply fill_width_nonneg; [lia|done]|].
  unfold fill_width.
  assert (double (inject_Z width) == inject_Z width)%Q as Ew
    by (apply double_inject_Z; lia).
  rewrite <- (int_inject_Z width) at 2. apply int_mono.
  rewrite <- Ew at 2. apply double_mono. rewrite Ew.
  pose proof (inject_Z_nonneg width ltac:(lia)) as Hq.
  apply Qle_trans with (inject_Z width * 1)%Q.
  - rewrite !(Qmult_comm (inject_Z width)). by apply Qmult_le_compat_r.
  - rewrite Qmult_1_r. apply Qle_refl.
Qed.

Lemma progress_bar_outside_track (frame : Image) (x y width height : Z) (progress : Q)
    (px py : Z) :
  0 <= fill_width width progress <= width ->
  in_box (x, y) (x + width, y + height) px py = false ->
  pixel (draw_progress_bar frame (x, y) width height progress) px py
  = pixel frame px py.
Proof.
  intros Hk Hout. rewrite pixel_draw_progress_bar.
  assert (on_edge (x, y) (x + width, y + height) px py = false) as ->.
  { unfold on_edge. by rewrite Hout. }
  assert (in_box (x, y) (x + fill_width width progress, y + height) px py = false)
    as ->.
  { unfold in_box in *. cbn [fst snd] in *. lia. }
  rewrite Hout. by destruct (pixel frame px py).
Qed.

(** C4, as stated, fails on the status panel's first bar: a fraction of
    1.5 paints fill 80 pixels right of the track's end where a fraction of
    1 leaves the panel black, and a fraction of -0.5 paints fill left of
    the track where a fraction of 0 leaves it black. *)
Lemma progress_bar_not_clamped :
  pixel (draw_progress_bar (zeros 180 450) (120, 50) 200 8 (3 # 2)) 400 54
    = Some (0, 255, 0) /\
  pixel (draw_progress_bar (zeros 180 450) (120, 50) 200 8 1) 400 54
    = Some (0, 0, 0) /\
  pixel (draw_progress_bar (zeros 180 450) (120, 50) 200 8 (- (1 # 2))) 50 54
    = Some (0, 255, 0) /\
  pixel (draw_progress_bar (zeros 180 450) (120, 50) 200 8 0) 50 54
    = Some (0, 0, 0).
Proof. rewrite !pixel_draw_progress_bar. by vm_compute. Qed.

(** C4, amended: the fraction is used as given.  With corners OpenCV
    accepts, every pixel of the buffer ends with the outline colour on the
    edge of the track, the fill colour in the rectangle from [x] to
    [x + int(width * fraction)] (the product rounded to a double), the
    dark track colour in the rest of the track and its old colour outside
    the track.  For a fraction in [0, 1] and a non-negative width the
    fill ends inside the track, so no pixel outside the track rectangle
    changes. *)
Theorem progress_bar_within_track (frame : Image) (x y width height : Z) (progress : Q) :
  coordinate x -> coordinate y ->
  coordinate (x + width) -> coordinate (y + height) ->
  coordinate (x + fill_width width progress) ->
  (forall px py,
     pixel (draw_progress_bar frame (x, y) width height progress) px py
     = match pixel frame px py with
       | None => None
       | Some old =>
           Some (if on_edge (x, y) (x + width, y + height) px py then (0, 150, 0)
                 else if in_box (x, y) (x + fill_width width progress, y + height) px py
                      then (0, 255, 0)
                 else if in_box (x, y) (x + width, y + height) px py then (0, 30, 0)
                 else old)
       end) /\
  (0 <= width -> (0 <= progress <= 1)%Q ->
   0 <= fill_width width progress <= width /\
   forall px py,
     in_box (x, y) (x + width, y + height) px py = false ->
     pixel (draw_progress_bar frame (x, y) width height progress) px py
     = pixel frame px py).
Proof.
  unfold coordinate. intros Hx Hy Hxw Hyh Hxk. split.
  - intros px py. rewrite pixel_draw_progress_bar. by destruct (pixel frame px py).
  - intros Hw Hp.
    assert (0 <= fill_width width progress <= width) as Hk.
    { apply fill_width_bounds; [|done].
      assert (2 ^ 31 + 2 ^ 31 < 2 ^ 53) by (by vm_compute). lia. }
    split; [done|]. intros px py. by apply progress_bar_outside_track.
Qed.

Lemma progress_bar_within_track_witness :
  pixel (draw_progress_bar (zeros 180 450) (120, 50) 200 8 (1 # 2)) 200 54
    = Some (0, 255, 0) /\
  0 <= fill_width 200 (1 # 2) <= 200 /\
  pixel (draw_progress_bar (zeros 180 450) (120, 50) 200 8 (1 # 2)) 400 54
    = pixel (zeros 180 450) 400 54.
Proof.
  destruct (progress_bar_within_track (zeros 180 450) 120 50 200 8 (1 # 2))
    as [Hpix Hin]; [by vm_compute ..|].
  destruct Hin as [Hk Hout]; [lia | by vm_compute |].
  split; [|split; [exact Hk | by apply Hout]].
  rewrite Hpix. by vm_compute.
Defined.

End ProgressBar.

(** ** Hand processing *)

Section HandsFacts.
Import Gesture Hand Hands.

Lemma each_hand_last (hands : list (list Landmark)) (hand : list Landmark)
    (frame : Frame) (gesture : string) :
  Forall (fun h => length h = 21%nat) hands ->
  gesture_of (each_hand (hands ++ [hand]) frame gesture) = recognize_gesture hand.
Proof.
  intros H. revert frame gesture.
  induction H as [|h hands Hh _ IH]; intros frame gesture; cbn.
  - unfold gesture_of. by destruct (recognize_gesture hand).
  - rewrite recognize_gesture_full by lia. cbn [bind]. apply IH.
Qed.

(** C2, as stated, fails: with a peace hand detected first and an open
    palm second, the gesture returned for the frame is "open_palm"; the
    first hand is classified "peace". *)
Lemma process_hands_two_hands :
  gesture_of (process_hands {| height := 720; width := 1280; layers := [] |}
    (Some [sample_hand false true true false false;
           sample_hand true true true true true]))
    = Ok "open_palm" /\
  recognize_gesture (sample_hand false true true false false) = Ok "peace".
Proof. split; reflexivity. Qed.

(** C2, amended: the loop classifies every detected hand and overwrites
    [gesture] each time, so with one or more hands of 21 landmarks the
    gesture returned is the classification of the last detected hand. *)
Theorem process_hands_last_hand (frame : Frame)
    (hands : list (list Landmark)) (hand : list Landmark) :
  Forall (fun h => length h = 21%nat) hands ->
  gesture_of (process_hands frame (Some (hands ++ [hand]))) = recognize_gesture hand.
Proof. intros H. by apply each_hand_last. Qed.

Lemma process_hands_last_hand_witness :
  gesture_of (process_hands {| height := 720; width := 1280; layers := [] |}
    (Some ([sample_hand false true true false false]
           ++ [sample_hand true true true true true])))
  = recognize_gesture (sample_hand true true true true true).
Proof.
  apply (process_hands_last_hand _ [sample_hand false true true false false]).
  by repeat constructor.
Defined.

End HandsFacts.

(** ** The widgets *)

Section WidgetFacts.
Import Radar Widgets.

(** The assignments of [draw_radar_display]: [scan_angle] and
    [radar_blips], nothing else. *)
Lemma draw_radar_display_state (self : HUD) (rng : Rng.state) (frame : Frame) :
  snd (fst (draw_radar_display self rng frame))
  = set_radar_blips (age_loop [] (fst (spawn (radar_blips self) rng)))
      (set_scan_angle ((scan_angle self + 3) mod 360) self).
Proof. unfold draw_radar_display. by destruct (spawn _ rng). Qed.

(** The assignment of [draw_vital_signs]: [pulse_animation]. *)
Lemma draw_vital_signs_state (self : HUD) (rng : Rng.state) (frame : Frame) :
  snd (fst (draw_vital_signs self rng frame))
  = set_pulse_animation
      (fmod (pulse_animation self + (15 # 100)) ((2 # 1) * math_pi)) self.
Proof. unfold draw_vital_signs. by destruct (vital_draws rng). Qed.






End WidgetFacts.

(** * Further properties of the code *)

(** ** The classifier under changes of the input *)

Section ClassifierInvariance.
Import Gesture Hand Move.

Lemma Qltb_proper (a a' b b' : Q) :
  (a == a')%Q -> (b == b')%Q -> Qltb a b = Qltb a' b'.
Proof.
  intros Ea Eb. destruct (Qltb a' b') eqn:E.
  - apply Qltb_lt. rewrite Ea, Eb. by apply Qltb_lt.
  - apply Qltb_ge. rewrite Ea, Eb. by apply Qltb_ge.
Qed.

(** The classifier looks at the landmarks only through the order of
    their heights and the planar distance of two of them. *)
Section Congruence.
Variable R : Landmark -> Landmark -> Prop.
Hypothesis R_height : forall p p' q q',
  R p p' -> R q q' -> is_finger_extended p q = is_finger_extended p' q'.
Hypothesis R_distance : forall p p' q q',
  R p p' -> R q q' -> (sq_distance p q == sq_distance p' q')%Q.

Lemma finger_extended_congr (lm lm' : list Landmark) (tip pip : nat) :
  Forall2 R lm lm' -> finger_extended lm tip pip = finger_extended lm' tip pip.
Proof.
  intros H. unfold finger_extended.
  pose proof (proj1 (Forall2_lookup _ _ _) H tip) as Ht.
  pose proof (proj1 (Forall2_lookup _ _ _) H pip) as Hp.
  destruct Ht as [t t' Ht|]; [|done].
  destruct Hp as [p p' Hp|]; [|done].
  by apply R_height.
Qed.

Lemma pinch_congr (lm lm' : list Landmark) :
  Forall2 R lm lm' -> pinch lm = pinch lm'.
Proof.
  intros H. unfold pinch, pinch_sq.
  pose proof (proj1 (Forall2_lookup _ _ _) H 4%nat) as Ht.
  pose proof (proj1 (Forall2_lookup _ _ _) H 8%nat) as Hi.
  destruct Ht as [t t' Ht|]; [|done].
  destruct Hi as [i i' Hi|]; [|done].
  apply Qltb_proper; [|reflexivity]. by apply R_distance.
Qed.

Lemma recognize_gesture_congr (lm lm' : list Landmark) :
  Forall2 R lm lm' -> recognize_gesture lm = recognize_gesture lm'.
Proof.
  intros H. pose proof (Forall2_length _ _ _ H) as L.
  destruct (decide (length lm = 0%nat)) as [E0|E0].
  { destruct lm; [|done]. by destruct lm'. }
  destruct (decide (length lm < 21)%nat) as [E|E].
  { rewrite !recognize_gesture_short; [done|lia|lia]. }
  rewrite !recognize_gesture_full by lia.
  unfold thumb_extended, index_extended, middle_extended, ring_extended,
    pinky_extended.
  by rewrite !(finger_extended_congr lm lm'), (pinch_congr lm lm').
Qed.

End Congruence.

Lemma Forall2_fmap_self (f : Landmark -> Landmark) (lm : list Landmark) :
  Forall2 (fun p' p => p' = f p) (f <$> lm) lm.
Proof. induction lm; cbn; by constructor. Qed.

(** Over exact coordinates the answer does not depend on where the hand
    is: moving every landmark by the same offset (in x, y and depth)
    leaves the result of [recognize_gesture] unchanged, an exception
    included.  (With rounding, two heights a hair apart can meet after
    the move.) *)
Theorem recognize_gesture_shift (dx dy dz : Q) (lm : list Landmark) :
  recognize_gesture (shift dx dy dz <$> lm) = recognize_gesture lm.
Proof.
  apply (recognize_gesture_congr (fun p' p => p' = shift dx dy dz p));
    [| |apply Forall2_fmap_self].
  - intros p' p q' q -> ->. unfold is_finger_extended, shift. cbn [y].
    destruct (Qltb (y p) (y q)) eqn:E.
    + apply Qltb_lt. apply Qplus_lt_l. by apply Qltb_lt.
    + apply Qltb_ge. apply Qplus_le_l. by apply Qltb_ge.
  - intros p' p q' q -> ->. unfold sq_distance, shift. cbn [x y].
    cbn [Qpower Qpower_positive Pos.iter_op pow_pos]. ring.
Qed.

(** Over exact coordinates the answer is the same in the mirrored
    picture: replacing every [x] by [1 - x] leaves the result of
    [recognize_gesture] unchanged. *)
Theorem recognize_gesture_mirror (lm : list Landmark) :
  recognize_gesture (mirror <$> lm) = recognize_gesture lm.
Proof.
  apply (recognize_gesture_congr (fun p' p => p' = mirror p));
    [| |apply Forall2_fmap_self].
  - by intros p' p q' q -> ->.
  - intros p' p q' q -> ->. unfold sq_distance, mirror. cbn [x y].
    cbn [Qpower Qpower_positive Pos.iter_op pow_pos]. ring.
Qed.

(** X1: depth is never read: two landmark sequences that agree point by
    point on [x] and [y] get the same result. *)
Theorem recognize_gesture_ignores_depth (lm lm' : list Landmark) :
  Forall2 same_xy lm lm' -> recognize_gesture lm = recognize_gesture lm'.
Proof.
  apply recognize_gesture_congr.
  - intros p p' q q' [_ Hp] [_ Hq]. unfold is_finger_extended. by rewrite Hp, Hq.
  - intros p p' q q' [Hpx Hpy] [Hqx Hqy]. unfold sq_distance.
    by rewrite Hpx, Hpy, Hqx, Hqy.
Qed.

Lemma recognize_gesture_ignores_depth_witness :
  recognize_gesture (sample_hand false true true false false)
  = recognize_gesture (shift 0 0 (7 # 2) <$> sample_hand false true true false false).
Proof.
  apply recognize_gesture_ignores_depth.
  repeat constructor.
Defined.

(** X2: on a hand of 21 landmarks or more, six labels are returned
    each under exactly one condition on the extension predicates of index,
    middle, ring and pinky (and the thumb for the two thumb labels).  The
    remaining combinations give "ok" or "unknown"; "ok" needs middle,
    ring and pinky extended and the index not, and is then the answer
    when the thumb tip is within 0.049999999 of the index tip, "unknown"
    being the answer when it is 0.050000001 away or more. *)
Theorem recognize_gesture_table (lm : list Landmark) :
  (21 <= length lm)%nat ->
  let thumb := thumb_extended lm in
  let index := index_extended lm in
  let middle := middle_extended lm in
  let ring := ring_extended lm in
  let pinky := pinky_extended lm in
  (recognize_gesture lm = Ok "peace"
     <-> index && middle && negb ring && negb pinky = true) /\
  (recognize_gesture lm = Ok "thumbs_up"
     <-> thumb && negb index && negb middle && negb ring && negb pinky = true) /\
  (recognize_gesture lm = Ok "thumbs_down"
     <-> negb thumb && negb index && negb middle && negb ring && negb pinky = true) /\
  (recognize_gesture lm = Ok "open_palm"
     <-> index && middle && ring && pinky = true) /\
  (recognize_gesture lm = Ok "pointing"
     <-> index && negb middle && negb ring && negb pinky = true) /\
  (recognize_gesture lm = Ok "rock"
     <-> index && negb middle && negb ring && pinky = true) /\
  (recognize_gesture lm = Ok "ok" \/ recognize_gesture lm = Ok "unknown"
     <-> (negb index && (middle || ring || pinky))
         || (index && xorb ring (middle && pinky)) = true) /\
  (recognize_gesture lm = Ok "ok"
     -> negb index && middle && ring && pinky = true) /\
  (negb index && middle && ring && pinky = true ->
     ((pinch_sq lm <= (49999999 # 1000000000) ^ 2)%Q -> recognize_gesture lm = Ok "ok") /\
     (((50000001 # 1000000000) ^ 2 <= pinch_sq lm)%Q -> recognize_gesture lm = Ok "unknown")).
Proof.
  intros L thumb index middle ring pinky.
  rewrite recognize_gesture_full by done.
  fold thumb index middle ring pinky.
  pose proof (pinch_near lm) as Hnear. pose proof (pinch_far lm) as Hfar.
  destruct thumb, index, middle, ring, pinky, (pinch lm); cbn;
    repeat split; intros; try congruence; try tauto;
    try (by destruct_or?; congruence);
    try (by (right + left));
    try (by specialize (Hnear ltac:(assumption)));
    try (by specialize (Hfar ltac:(assumption))).
Qed.

Lemma recognize_gesture_table_witness :
  recognize_gesture (sample_hand false true false false true) = Ok "rock".
Proof.
  assert (21 <= length (sample_hand false true false false true))%nat as L
    by (cbn; lia).
  destruct (recognize_gesture_table _ L) as (_ & _ & _ & _ & _ & Hrock & _).
  by apply Hrock.
Defined.

(** X3: [calculate_distance] never raises, the radicand being a sum of
    squares, and comparing the distance with a threshold gives the same
    answer for the two orders of the points. *)
Theorem calculate_distance_symmetric (p q : Landmark) :
  exists d d',
    calculate_distance p q = Ok d /\
    calculate_distance q p = Ok d' /\
    forall r, root_ltb d r = root_ltb d' r.
Proof.
  do 2 eexists. rewrite !calculate_distance_ok. do 2 (split; [reflexivity|]).
  intros r. cbn [root_ltb]. f_equal. apply Qltb_proper; [|reflexivity].
  cbn [Qpower Qpower_positive Pos.iter_op pow_pos]. ring.
Qed.

End ClassifierInvariance.

(** ** Hand processing, all cases *)

Section HandsCases.
Import Gesture Hand Hands.

Lemma each_hand_full (hands : list (list Landmark)) (frame : Frame) (gesture : string) :
  Forall (fun h => length h = 21%nat) hands ->
  exists frame' g,
    each_hand hands frame gesture = Ok (frame', g) /\
    (hands = [] -> frame' = frame /\ g = gesture) /\
    (hands <> [] -> g ∈ labels) /\
    length (layers frame') = (length (layers frame) + 2 * length hands)%nat /\
    height frame' = height frame /\ width frame' = width frame.
Proof.
  intros H. revert frame gesture.
  induction H as [|h hands Hh _ IH]; intros frame gesture.
  - exists frame, gesture. cbn. repeat split; try done; lia.
  - cbn [each_hand]. rewrite recognize_gesture_full by lia. cbn [bind].
    set (g1 := decide_gesture _ _ _ _ _ _).
    set (frame1 := overlay (overlay frame _ _) _ _).
    destruct (IH frame1 g1) as (frame' & g & E & Hnil & Hcons & Hlen & Hh' & Hw').
    exists frame', g. split; [done|]. split; [done|]. split.
    + intros _. destruct hands as [|h' hands'].
      * destruct Hnil as [_ ->]; [done|]. apply decide_gesture_label.
      * by apply Hcons.
    + rewrite Hlen, Hh', Hw'. subst frame1. unfold overlay. cbn.
      rewrite !length_app. cbn. repeat split; lia.
Qed.

Lemma process_hands_full_hands_total (frame : Frame) (hands : list (list Landmark)) :
  Forall (fun h => length h = 21%nat) hands ->
  exists frame' g, process_hands frame (Some hands) = Ok (frame', g).
Proof.
  intros H. destruct (each_hand_full hands frame "no_hand" H) as (frame' & g & E & _).
  by exists frame', g.
Qed.

(** X4: when every detected hand has 21 landmarks, [process_hands]
    returns without raising; the gesture is "no_hand" exactly when the
    list of hands is empty and one of the nine classifier labels
    otherwise; the frame keeps its size and gains two drawings per hand
    (the skeleton and the label text). *)
Theorem process_hands_full_hands (frame : Frame) (hands : list (list Landmark)) :
  Forall (fun h => length h = 21%nat) hands ->
  exists frame' g,
    process_hands frame (Some hands) = Ok (frame', g) /\
    (g = "no_hand" <-> hands = []) /\
    (hands <> [] -> g ∈ labels) /\
    length (layers frame') = (length (layers frame) + 2 * length hands)%nat /\
    height frame' = height frame /\ width frame' = width frame.
Proof.
  intros H. cbn [process_hands].
  destruct (each_hand_full hands frame "no_hand" H)
    as (frame' & g & E & Hnil & Hcons & Hrest).
  exists frame', g. split; [done|]. split; [|by split].
  split.
  - intros ->. destruct hands as [|h hands']; [done|].
    assert ("no_hand" ∈ labels) as Hin by (by apply Hcons).
    apply list_elem_of_In in Hin. cbn in Hin.
    repeat destruct Hin as [[=]|Hin]. done.
  - intros ->. by destruct Hnil.
Qed.

Lemma process_hands_full_hands_witness :
  exists frame' g,
    process_hands {| height := 720; width := 1280; layers := [] |}
      (Some [sample_hand false true false false false]) = Ok (frame', g) /\
    (g = "no_hand" <-> [sample_hand false true false false false] = []) /\
    ([sample_hand false true false false false] <> [] -> g ∈ labels) /\
    length (layers frame') = (0 + 2 * 1)%nat /\
    height frame' = 720 /\ width frame' = 1280.
Proof.
  apply (process_hands_full_hands {| height := 720; width := 1280; layers := [] |}
           [sample_hand false true false false false]).
  by repeat constructor.
Defined.

End HandsCases.

(** ** What every pass of the loop keeps *)

From Stdlib Require Import Lqa.

Section Invariants.
Import Inv.

Lemma wf_init (now boot : Q) : wf (init now boot).
Proof.
  split; cbn; try done; try lia.
  all: try (apply list_elem_of_In; cbn; tauto).
Qed.

(** *** Telemetry *)

Lemma choice_in {A} (d : A) (seq : list A) (rng : Rng.state) :
  seq <> [] -> fst (Rng.choice d seq rng) ∈ seq.
Proof.
  intros H. unfold Rng.choice. cbn.
  apply list_elem_of_In, nth_In, Nat.mod_upper_bound. by destruct seq.
Qed.

Lemma resample_in (p : Q) (values : list string) (old : string) (rng : Rng.state) :
  values <> [] -> old ∈ values ->
  fst (Telemetry.resample p values old rng) ∈ values.
Proof.
  intros Hne Hold. unfold Telemetry.resample.
  destruct (Rng.random rng) as [u rng1]. destruct (Qltb u p); [|done].
  by apply choice_in.
Qed.

Lemma update_system_metrics_fields (self : HUD) (t now cpu mem : Q) (rng : Rng.state) :
  let self' := fst (Telemetry.update_system_metrics self t now cpu mem rng) in
  scan_angle self' = scan_angle self /\
  pulse_animation self' = pulse_animation self /\
  radar_blips self' = radar_blips self /\
  system_boot_time self' = system_boot_time self /\
  frame_count self' = frame_count self /\
  hud_modes self' = hud_modes self /\
  current_hud_mode self' = current_hud_mode self /\
  weapon_systems self' = weapon_systems self /\
  current_volume self' = current_volume self.
Proof.
  cbn zeta. unfold Telemetry.update_system_metrics.
  destruct (Telemetry.resample _ _ _ rng) as [net rng1].
  by destruct (Telemetry.resample _ _ _ rng1) as [threat rng2].
Qed.

Lemma update_system_metrics_histories (self : HUD) (t now cpu mem : Q) (rng : Rng.state) :
  let self' := fst (Telemetry.update_system_metrics self t now cpu mem rng) in
  let grow (v : Q) (history : list Q) :=
    if (50 <? length (Telemetry.push cpu (cpu_history self)))%nat
    then Telemetry.pop0 (Telemetry.push v history)
    else Telemetry.push v history in
  cpu_history self' = grow cpu (cpu_history self) /\
  memory_history self' = grow mem (memory_history self).
Proof.
  cbn zeta. unfold Telemetry.update_system_metrics.
  destruct (Telemetry.resample _ _ _ rng) as [net rng1].
  by destruct (Telemetry.resample _ _ _ rng1) as [threat rng2].
Qed.

Lemma update_system_metrics_status (self : HUD) (t now cpu mem : Q) (rng : Rng.state) :
  let self' := fst (Telemetry.update_system_metrics self t now cpu mem rng) in
  network_status (system_status self')
  = fst (Telemetry.resample (1 # 100) Telemetry.network_stats
           (network_status (system_status self)) rng) /\
  threat_level (system_status self')
  = fst (Telemetry.resample (5 # 1000) Telemetry.threat_levels
           (threat_level (system_status self))
           (snd (Telemetry.resample (1 # 100) Telemetry.network_stats
                   (network_status (system_status self)) rng))) /\
  cpu_usage (system_status self') = cpu /\
  memory_usage (system_status self') = mem /\
  system_time (system_status self') = now /\
  mission_status (system_status self') = mission_status (system_status self) /\
  neural_interface (system_status self') = neural_interface (system_status self).
Proof.
  cbn zeta. unfold Telemetry.update_system_metrics.
  destruct (Telemetry.resample _ _ _ rng) as [net rng1]. cbn [fst snd].
  by destruct (Telemetry.resample _ _ _ rng1) as [threat rng2].
Qed.

Lemma wf_update_system_metrics (self : HUD) (t now cpu mem : Q) (rng : Rng.state) :
  wf self -> wf (fst (Telemetry.update_system_metrics self t now cpu mem rng)).
Proof.
  intros W.
  destruct (update_system_metrics_fields self t now cpu mem rng)
    as (Hs & Hp & Hb & _ & _ & Hm & Hc & Hws & _).
  destruct (update_system_metrics_histories self t now cpu mem rng) as [Hch Hmh].
  destruct (update_system_metrics_status self t now cpu mem rng) as (Hn & Ht & _).
  pose proof (histories_paired _ W) as Hpair.
  pose proof (histories_capped _ W) as Hcap.
  split.
  - rewrite Hch, Hmh. unfold Telemetry.push, Telemetry.pop0.
    destruct (_ <? _)%nat; rewrite ?length_drop, !length_app; cbn [length]; lia.
  - rewrite Hch. unfold Telemetry.push, Telemetry.pop0.
    destruct (Nat.ltb_spec 50 (length (cpu_history self ++ [cpu]))) as [H|H];
      rewrite ?length_drop, length_app in *; cbn [length] in *; lia.
  - rewrite Hn. apply resample_in; [done|apply W].
  - rewrite Ht. apply resample_in; [done|apply W].
  - rewrite Hm, Hc. apply W.
  - rewrite Hs. apply W.
  - rewrite Hp. apply W.
  - rewrite Hb. apply W.
  - rewrite Hb. apply W.
  - unfold Widgets.weapon. rewrite Hws. apply W.
Qed.

(** *** Radar *)

Lemma spawn_contacts (blips : list Blip) (rng : Rng.state) :
  Forall contact_ok blips ->
  Forall (fun b => 0 <= angle b <= 360 /\ 20 <= distance b <= 80 /\
                   type b ∈ Radar.blip_types /\ 1 <= lifetime b <= 200)
         (fst (Radar.spawn blips rng)).
Proof.
  intros H.
  assert (Forall (fun b => 0 <= angle b <= 360 /\ 20 <= distance b <= 80 /\
                   type b ∈ Radar.blip_types /\ 1 <= lifetime b <= 200) blips) as H'.
  { eapply Forall_impl; [exact H|]. intros b (Ha & Hd & Ht & Hl).
    repeat split; try done; lia. }
  destruct (spawn_ranges blips rng) as [->|(b & -> & Ha & Hd & Ht & Hl)]; [done|].
  apply Forall_app. split; [done|]. constructor; [|constructor].
  change (Radar.radar_size / 2 - 30) with 80 in Hd. repeat split; try done; lia.
Qed.

Lemma wf_draw_radar_display (self : HUD) (rng : Rng.state) (frame : Frame) :
  wf self -> wf (snd (fst (Radar.draw_radar_display self rng frame))).
Proof.
  intros W. rewrite draw_radar_display_state.
  split; cbn; try apply W.
  - apply Z.mod_pos_bound. lia.
  - rewrite age_loop_filter by constructor. cbn [app].
    apply Forall_forall. intros b Hb.
    apply list_elem_of_filter in Hb as [Hpos Hb].
    apply list_elem_of_In, in_map_iff in Hb as (b0 & <- & Hb0).
    apply list_elem_of_In in Hb0.
    pose proof (proj1 (Forall_forall _ _)
      (spawn_contacts (radar_blips self) rng (contacts_ok _ W)) b0 Hb0)
      as (Ha & Hd & Ht & Hl).
    unfold contact_ok, Radar.age in *.
    cbn [angle distance type lifetime] in *. cbv beta in Hpos.
    repeat split; try done; lia.
  - etransitivity; [apply age_loop_length|]. cbn. apply spawn_length, W.
Qed.

(** *** Vital signs *)

Lemma fmod_range (a b : Q) :
  (0 < b)%Q -> (0 <= Widgets.fmod a b)%Q /\ (Widgets.fmod a b < b)%Q.
Proof.
  intros Hb. unfold Widgets.fmod.
  pose proof (Qfloor_le (a / b)) as Hlo.
  pose proof (Qlt_floor (a / b)) as Hhi.
  rewrite inject_Z_plus in Hhi.
  set (f := inject_Z (Qfloor (a / b))) in *.
  assert (a == b * (a / b))%Q as Ea by (field; lra).
  apply (Qmult_le_l _ _ b Hb) in Hlo.
  apply (Qmult_lt_l _ _ b Hb) in Hhi.
  rewrite <- Ea in Hlo, Hhi.
  change (inject_Z 1) with 1%Q in Hhi. split; lra.
Qed.

Lemma two_pi_pos : (0 < (2 # 1) * Widgets.math_pi)%Q.
Proof. reflexivity. Qed.

Lemma wf_draw_vital_signs (self : HUD) (rng : Rng.state) (frame : Frame) :
  wf self -> wf (snd (fst (Widgets.draw_vital_signs self rng frame))).
Proof.
  intros W. rewrite draw_vital_signs_state.
  split; cbn; try apply W.
  apply fmod_range, two_pi_pos.
Qed.

(** *** The registry and the keys *)

Lemma wf_widget (name : string) (draw : widget)
    (self : HUD) (rng : Rng.state) (clock : Clock) (frame : Frame) :
  (name, draw) ∈ hud_elements ->
  wf self -> wf (snd (fst (draw self rng clock frame))).
Proof.
  intros Hin W. unfold hud_elements in Hin.
  repeat (apply elem_of_cons in Hin as [[= -> ->]|Hin]);
    [..|by apply elem_of_nil in Hin];
    first [ by apply wf_draw_radar_display
          | by apply wf_draw_vital_signs
          | done ].
Qed.

(** A widget returns a frame of the size it was given. *)
Lemma widget_size (name : string) (draw : widget)
    (self : HUD) (rng : Rng.state) (clock : Clock) (frame : Frame) :
  (name, draw) ∈ hud_elements ->
  height (fst (fst (draw self rng clock frame))) = height frame /\
  width (fst (fst (draw self rng clock frame))) = width frame.
Proof.
  intros Hin. unfold hud_elements in Hin.
  repeat (apply elem_of_cons in Hin as [[= -> ->]|Hin]);
    [..|by apply elem_of_nil in Hin]; cbv beta; try done.
  all: unfold Radar.draw_radar_display, Widgets.draw_vital_signs;
    try destruct (Radar.spawn _ rng); try destruct (Widgets.vital_draws rng); done.
Qed.

(** Every widget copies its panel where it anchors its drawing. *)
Lemma panel_anchor (name : string) (draw : widget)
    (self : HUD) (rng : Rng.state) (clock : Clock) (frame : Frame)
    (at_ size : Z * Z) :
  (name, draw) ∈ hud_elements ->
  Numpy.panel name frame = Some (at_, size) ->
  anchor <$> last (layers (fst (fst (draw self rng clock frame)))) = Some at_.
Proof.
  intros Hin. unfold hud_elements in Hin.
  repeat (apply elem_of_cons in Hin as [[= -> ->]|Hin]);
    [..|by apply elem_of_nil in Hin]; cbv beta;
    unfold Numpy.panel; repeat case_decide; try done; intros [= <- <-];
    unfold Radar.draw_radar_display, Widgets.draw_vital_signs,
      Widgets.draw_status_panel, Widgets.draw_weapon_system,
      Widgets.draw_communication, Widgets.draw_threat_assessment,
      Widgets.draw_mission_objectives, overlay;
    try destruct (Radar.spawn _ rng); try destruct (Widgets.vital_draws rng);
    cbn [fst snd layers]; by rewrite last_snoc.
Qed.

Lemma blit_fits_size (name : string) (frame frame' : Frame) :
  height frame = height frame' -> width frame = width frame' ->
  Numpy.blit_fits name frame = Numpy.blit_fits name frame'.
Proof.
  intros Hh Hw. unfold Numpy.blit_fits, Numpy.panel, Numpy.fits.
  by rewrite Hh, Hw.
Qed.

(** A frame of at least 250 rows and 470 columns has room for every
    panel. *)
Lemma blit_fits_roomy (name : string) (frame : Frame) :
  250 <= height frame -> 470 <= width frame -> Numpy.blit_fits name frame = true.
Proof.
  intros Hh Hw. unfold Numpy.blit_fits, Numpy.panel.
  change Radar.radar_size with 220.
  repeat case_decide; try done;
    unfold Numpy.fits, Numpy.slice_length, Numpy.clip; cbn [fst snd];
    apply andb_true_iff; split; apply Z.eqb_eq;
    repeat match goal with
           | |- context [?a <? ?b] => destruct (Z.ltb_spec a b)
           end; Z.div_mod_to_equations; lia.
Qed.

Lemma wf_draw_elements (elements : list (string * widget))
    (self : HUD) (rng : Rng.state) (clock : Clock) (frame : Frame)
    (frame' : Frame) (self' : HUD) (rng' : Rng.state) :
  elements ⊆ hud_elements ->
  wf self ->
  Loop.draw_elements elements self rng clock frame = Ok (frame', self', rng') ->
  wf self'.
Proof.
  revert self rng frame.
  induction elements as [|[name draw] rest IH]; intros self rng frame Hsub W;
    cbn [Loop.draw_elements].
  - by intros [= _ <- _].
  - unfold Loop.call. destruct (Numpy.blit_fits name frame); [|done]. cbn [bind].
    pose proof (wf_widget name draw self rng clock frame) as Hw.
    destruct (draw self rng clock frame) as [[frame1 self1] rng1].
    apply IH.
    + intros e He. apply Hsub. by right.
    + apply Hw; [|done]. apply Hsub. by left.
Qed.

(** With room for every panel no widget raises. *)
Lemma draw_elements_ok (elements : list (string * widget))
    (self : HUD) (rng : Rng.state) (clock : Clock) (frame : Frame) :
  elements ⊆ hud_elements ->
  250 <= height frame -> 470 <= width frame ->
  exists drawn, Loop.draw_elements elements self rng clock frame = Ok drawn.
Proof.
  revert self rng frame.
  induction elements as [|[name draw] rest IH]; intros self rng frame Hsub Hh Hw;
    cbn [Loop.draw_elements].
  - by eexists.
  - unfold Loop.call. rewrite blit_fits_roomy by done. cbn [bind].
    assert ((name, draw) ∈ hud_elements) as Hin by (apply Hsub; by left).
    destruct (widget_size name draw self rng clock frame Hin) as [Eh Ew].
    destruct (draw self rng clock frame) as [[frame1 self1] rng1].
    cbn [fst] in Eh, Ew. apply IH.
    + intros e He. apply Hsub. by right.
    + by rewrite Eh.
    + by rewrite Ew.
Qed.



Lemma index_found (v : string) (seq : list string) :
  v ∈ seq -> exists k, Loop.index v seq = Ok k /\ (k < length seq)%nat.
Proof.
  induction seq as [|s seq IH]; intros Hin; [by apply elem_of_nil in Hin|].
  cbn. destruct (decide (s = v)) as [->|Hne].
  - exists 0%nat. split; [done|lia].
  - apply elem_of_cons in Hin as [->|Hin]; [done|].
    destruct (IH Hin) as (k & -> & Hk). exists (S k). split; [done|lia].
Qed.

Lemma cycle_mode_ok (self : HUD) :
  current_hud_mode self ∈ hud_modes self ->
  exists mode, Loop.cycle_mode self = Ok (set_current_hud_mode mode self) /\
               mode ∈ hud_modes self.
Proof.
  intros Hin. unfold Loop.cycle_mode.
  destruct (index_found _ _ Hin) as (k & -> & Hk). cbn [bind].
  unfold getitem.
  destruct (lookup_lt_is_Some_2 (hud_modes self)
              ((k + 1) mod length (hud_modes self))) as [mode Hm].
  { apply Nat.mod_upper_bound. lia. }
  rewrite Hm. cbn [bind]. exists mode. split; [done|].
  by eapply list_elem_of_lookup_2.
Qed.

Lemma wf_set_current_hud_mode (mode : string) (self : HUD) :
  mode ∈ hud_modes self -> wf self -> wf (set_current_hud_mode mode self).
Proof. intros Hm W. split; cbn; try apply W. done. Qed.

Lemma on_key_ok (self : HUD) (rng : Rng.state) (frame : Frame) (key : Z) :
  wf self ->
  exists o, Loop.on_key self rng frame key = Ok o /\ wf (Loop.state_of o).
Proof.
  intros W. unfold Loop.on_key.
  destruct (key =? 113); [by eexists|].
  destruct (key =? 109).
  - destruct (cycle_mode_ok self (mode_known _ W)) as (mode & -> & Hm).
    cbn [bind]. eexists. split; [done|]. cbn. by apply wf_set_current_hud_mode.
  - destruct (key =? 114); eexists; (split; [done|]); cbn; [|done].
    split; cbn; try apply W; [constructor|lia].
Qed.

(** A pass that returns leaves the object well formed. *)
Lemma iteration_wf (self : HUD) (rng : Rng.state) (i : Loop.Input) (o : Loop.outcome) :
  wf self -> Loop.iteration self rng i = Ok o -> wf (Loop.state_of o).
Proof.
  intros W. unfold Loop.iteration.
  destruct (Loop.ret i); cbn [negb]; [|by intros [= <-]].
  assert (wf (set_frame_count (frame_count self + 1) self)) as W1
    by (split; cbn; apply W).
  pose proof (wf_update_system_metrics _ (Loop.current_time i) (Loop.metrics_now i)
    (Loop.cpu_percent i) (Loop.memory_percent i) rng W1) as W2.
  destruct (Telemetry.update_system_metrics _ _ _ _ _ rng) as [self2 rng2].
  cbn [fst] in W2.
  destruct (Hands.process_hands _ _) as [fg|]; [|done]. cbn [bind].
  pose proof (wf_draw_elements hud_elements self2 rng2 (Loop.clock i) fg.1) as W3.
  destruct (Loop.draw_elements hud_elements self2 rng2 _ _) as [[[frame3 self3] rng3]|];
    [|done].
  cbn [bind]. specialize (W3 _ _ _ ltac:(done) W2 eq_refl).
  destruct (on_key_ok self3 rng3 frame3 (Loop.key i) W3) as (o' & -> & Wo).
  by intros [= <-].
Qed.

(** With full hands and room for the panels a pass returns. *)
Lemma iteration_ok (self : HUD) (rng : Rng.state) (i : Loop.Input) :
  wf self -> hands_full i -> roomy i ->
  exists o, Loop.iteration self rng i = Ok o.
Proof.
  intros W Hh [Rh Rw]. unfold Loop.iteration.
  destruct (Loop.ret i); cbn [negb]; [|by eexists].
  assert (wf (set_frame_count (frame_count self + 1) self)) as W1
    by (split; cbn; apply W).
  pose proof (wf_update_system_metrics _ (Loop.current_time i) (Loop.metrics_now i)
    (Loop.cpu_percent i) (Loop.memory_percent i) rng W1) as W2.
  destruct (Telemetry.update_system_metrics _ _ _ _ _ rng) as [self2 rng2].
  cbn [fst] in W2.
  set (frame0 := {| height := _; width := _; layers := [] |}).
  assert (exists fg, Hands.process_hands frame0 (Loop.multi_hand_landmarks i) = Ok fg /\
                     height fg.1 = height frame0 /\ width fg.1 = width frame0)
    as (fg & -> & Eh & Ew).
  { unfold hands_full in Hh. destruct (Loop.multi_hand_landmarks i) as [hands|].
    - destruct (each_hand_full hands frame0 "no_hand" Hh)
        as (f & g & E & _ & _ & _ & ? & ?).
      by exists (f, g).
    - by eexists. }
  cbn [bind].
  destruct (draw_elements_ok hud_elements self2 rng2 (Loop.clock i) fg.1)
    as [[[frame3 self3] rng3] E]; [done|by rewrite Eh|by rewrite Ew|].
  rewrite E. cbn [bind].
  pose proof (wf_draw_elements _ _ _ _ _ _ _ _ ltac:(done) W2 E) as W3.
  destruct (on_key_ok self3 rng3 frame3 (Loop.key i) W3) as (o & -> & _).
  by eexists.
Qed.

(** A run that returns leaves the object well formed. *)
Lemma run_wf (inputs : list Loop.Input) (self : HUD) (rng : Rng.state)
    (self' : HUD) (rng' : Rng.state) :
  wf self -> Loop.run self rng inputs = Ok (self', rng') -> wf self'.
Proof.
  revert self rng. induction inputs as [|i rest IH]; intros self rng W; cbn [Loop.run].
  - by intros [= <- _].
  - pose proof (iteration_wf self rng i) as Hi.
    destruct (Loop.iteration self rng i) as [o|]; [|done]. cbn [bind].
    specialize (Hi o W eq_refl).
    destruct o as [self1 rng1 frame1|self1 rng1]; cbn in Hi.
    + by apply IH.
    + by intros [= <- _].
Qed.

(** With full hands and room for the panels the loop runs to the end of
    its input, or to its [break], without raising. *)
Lemma run_ok (inputs : list Loop.Input) (self : HUD) (rng : Rng.state) :
  wf self -> Forall hands_full inputs -> Forall roomy inputs ->
  exists self' rng', Loop.run self rng inputs = Ok (self', rng').
Proof.
  intros W H. revert self rng W.
  induction H as [|i rest Hi _ IH]; intros self rng W R; cbn [Loop.run].
  - by exists self, rng.
  - apply Forall_cons in R as [Ri R].
    destruct (iteration_ok self rng i W Hi Ri) as (o & E).
    pose proof (iteration_wf self rng i o W E) as Wo. rewrite E. cbn [bind].
    destruct o as [self1 rng1 frame1|self1 rng1]; cbn in Wo.
    + by apply IH.
    + by exists self1, rng1.
Qed.

(** *** What a pass does not touch, and what it does not look at *)

(** A registered widget assigns at most the two animation phases and the
    contact list, and what it assigns and draws from the random source
    does not depend on the frame it is given. *)
Lemma widget_shape (name : string) (draw : widget)
    (self : HUD) (rng : Rng.state) (clock : Clock) (frame frame' : Frame) :
  (name, draw) ∈ hud_elements ->
  (exists scan blips pulse,
     snd (fst (draw self rng clock frame))
     = set_pulse_animation pulse (set_radar_blips blips (set_scan_angle scan self))) /\
  snd (fst (draw self rng clock frame)) = snd (fst (draw self rng clock frame')) /\
  snd (draw self rng clock frame) = snd (draw self rng clock frame').
Proof.
  intros Hin. unfold hud_elements in Hin.
  repeat (apply elem_of_cons in Hin as [[= -> ->]|Hin]);
    [..|by apply elem_of_nil in Hin]; cbv beta.
  all: try (split; [|done];
            exists (scan_angle self), (radar_blips self), (pulse_animation self);
            by destruct self).
  - rewrite !draw_radar_display_state. split; [|split; [done|]].
    + exists ((scan_angle self + 3) mod 360),
        (Radar.age_loop [] (fst (Radar.spawn (radar_blips self) rng))),
        (pulse_animation self).
      by destruct self.
    + unfold Radar.draw_radar_display. by destruct (Radar.spawn _ rng).
  - rewrite !draw_vital_signs_state. split; [|split; [done|]].
    + exists (scan_angle self), (radar_blips self),
        (Widgets.fmod (pulse_animation self + (15 # 100)) ((2 # 1) * Widgets.math_pi)).
      by destruct self.
    + unfold Widgets.draw_vital_signs. by destruct (Widgets.vital_draws rng).
Qed.

Lemma draw_elements_shape (elements : list (string * widget))
    (self : HUD) (rng : Rng.state) (clock : Clock) (frame frame' : Frame) :
  elements ⊆ hud_elements ->
  height frame = height frame' -> width frame = width frame' ->
  same_drawn self (Loop.draw_elements elements self rng clock frame)
                  (Loop.draw_elements elements self rng clock frame').
Proof.
  revert self rng frame frame'.
  induction elements as [|[name draw] rest IH]; intros self rng frame frame' Hsub Hh Hw.
  - cbn. split; [done|]. split; [done|].
    exists (scan_angle self), (radar_blips self), (pulse_animation self).
    by destruct self.
  - cbn [Loop.draw_elements]. unfold Loop.call.
    rewrite <- (blit_fits_size name frame frame' Hh Hw).
    destruct (Numpy.blit_fits name frame); [|done]. cbn [bind].
    assert ((name, draw) ∈ hud_elements) as Hin by (apply Hsub; by left).
    assert (rest ⊆ hud_elements) as Hrest by (intros e He; apply Hsub; by right).
    destruct (widget_shape name draw self rng clock frame frame' Hin)
      as ((scan & blips & pulse & E) & Es & Er).
    destruct (widget_size name draw self rng clock frame Hin) as [Eh Ew].
    destruct (widget_size name draw self rng clock frame' Hin) as [Eh' Ew'].
    destruct (draw self rng clock frame) as [[frame1 self1] rng1].
    destruct (draw self rng clock frame') as [[frame1' self1'] rng1'].
    cbn [fst snd] in *. subst self1' rng1'.
    pose proof (IH self1 rng1 frame1 frame1' Hrest ltac:(congruence) ltac:(congruence))
      as Hrec.
    unfold same_drawn in *.
    destruct (Loop.draw_elements rest self1 rng1 clock frame1) as [[[f s] g]|e],
             (Loop.draw_elements rest self1 rng1 clock frame1') as [[[f' s'] g']|e'];
      try done.
    destruct Hrec as (-> & -> & scan2 & blips2 & pulse2 & E2).
    split; [done|]. split; [done|].
    exists scan2, blips2, pulse2. rewrite E2, E. by destruct self.
Qed.

Lemma same_settings_refl (self : HUD) : same_settings self self.
Proof. by repeat split. Qed.

Lemma same_settings_trans (a b c : HUD) :
  same_settings a b -> same_settings b c -> same_settings a c.
Proof.
  intros (?&?&?&?&?&?) (?&?&?&?&?&?). repeat split; congruence.
Qed.

(** One pass: the settings stay, and the frame counter moves by one when
    a frame was captured. *)
Lemma iteration_static (self : HUD) (rng : Rng.state) (i : Loop.Input) (o : Loop.outcome) :
  Loop.iteration self rng i = Ok o ->
  same_settings self (Loop.state_of o) /\
  frame_count (Loop.state_of o)
  = frame_count self + (if Loop.ret i then 1 else 0) /\
  (continues o = false -> Loop.ret i = false \/ Loop.key i = 113).
Proof.
  unfold Loop.iteration.
  destruct (Loop.ret i); cbn [negb].
  2:{ intros [= <-]. cbn. repeat split; try done; [lia|by left]. }
  destruct (update_system_metrics_fields (set_frame_count (frame_count self + 1) self)
    (Loop.current_time i) (Loop.metrics_now i) (Loop.cpu_percent i)
    (Loop.memory_percent i) rng) as (_ & _ & _ & Hb & Hf & Hm & _ & Hw & Hv).
  destruct (update_system_metrics_status (set_frame_count (frame_count self + 1) self)
    (Loop.current_time i) (Loop.metrics_now i) (Loop.cpu_percent i)
    (Loop.memory_percent i) rng) as (_ & _ & _ & _ & _ & Hmi & Hne).
  destruct (Telemetry.update_system_metrics _ _ _ _ _ rng) as [self2 rng2].
  cbn [fst] in *. cbn in Hb, Hf, Hm, Hw, Hv, Hmi, Hne.
  destruct (Hands.process_hands _ _) as [fg|]; [|done]. cbn [bind].
  pose proof (draw_elements_shape hud_elements self2 rng2 (Loop.clock i) fg.1 fg.1
    ltac:(done) eq_refl eq_refl) as Hd.
  unfold same_drawn in Hd.
  destruct (Loop.draw_elements hud_elements self2 rng2 _ _) as [[[frame3 self3] rng3]|];
    [|done].
  destruct Hd as (_ & _ & scan & blips & pulse & E). cbn [bind]. subst self3.
  unfold Loop.on_key.
  destruct (Z.eqb_spec (Loop.key i) 113) as [Hq|Hq].
  { intros [= <-]. cbn. unfold same_settings. cbn. repeat split; try done. by right. }
  destruct (Loop.key i =? 109).
  - unfold Loop.cycle_mode.
    destruct (Loop.index _ _) as [k|]; [|done]. cbn [bind].
    destruct (getitem _ _) as [mode|]; [|done]. intros [= <-].
    cbn. unfold same_settings. cbn. by repeat split.
  - destruct (Loop.key i =? 114); intros [= <-];
      cbn; unfold same_settings; cbn; by repeat split.
Qed.

(** One pass does not look at the hands: with full hands on both sides,
    inputs that differ only in the hands lead to the same object, the
    same random source and the same decision to go on. *)
Lemma iteration_ignores_hands (self : HUD) (rng : Rng.state) (i i' : Loop.Input) :
  same_but_hands i i' -> hands_full i -> hands_full i' ->
  forget_frame (Loop.iteration self rng i) = forget_frame (Loop.iteration self rng i').
Proof.
  intros (Hr & Hs & Ht & Hn & Hc & Hm & Hk & Hkey) Hh Hh'.
  unfold Loop.iteration. rewrite <- Hr, <- Hs, <- Ht, <- Hn, <- Hc, <- Hm, <- Hk, <- Hkey.
  destruct (Loop.ret i); cbn [negb]; [|done].
  destruct (Telemetry.update_system_metrics _ _ _ _ _ rng) as [self2 rng2].
  set (frame0 := {| height := _; width := _; layers := [] |}).
  assert (forall j, hands_full j ->
            exists fg, Hands.process_hands frame0 (Loop.multi_hand_landmarks j) = Ok fg /\
                       height fg.1 = height frame0 /\ width fg.1 = width frame0)
    as Hp.
  { intros j Hj. unfold hands_full in Hj.
    destruct (Loop.multi_hand_landmarks j) as [hands|]; [|by eexists].
    destruct (each_hand_full hands frame0 "no_hand" Hj)
      as (f & g & E & _ & _ & _ & ? & ?).
    by exists (f, g). }
  destruct (Hp i Hh) as (fg & -> & Eh & Ew).
  destruct (Hp i' Hh') as (fg' & -> & Eh' & Ew'). cbn [bind].
  pose proof (draw_elements_shape hud_elements self2 rng2 (Loop.clock i) fg.1 fg'.1
    ltac:(done) ltac:(congruence) ltac:(congruence)) as Hd.
  unfold same_drawn in Hd.
  destruct (Loop.draw_elements hud_elements self2 rng2 _ fg.1) as [[[frame3 self3] rng3]|e],
           (Loop.draw_elements hud_elements self2 rng2 _ fg'.1)
             as [[[frame3' self3'] rng3']|e']; try done; cbn [bind].
  - destruct Hd as (<- & <- & _).
    unfold Loop.on_key.
    destruct (Loop.key i =? 113); [done|].
    destruct (Loop.key i =? 109).
    + by destruct (Loop.cycle_mode self3).
    + by destruct (Loop.key i =? 114).
  - by subst e'.
Qed.

End Invariants.

(** ** The main loop over any input *)

Section LoopFacts.
Import Inv.

Lemma run_static (inputs : list Loop.Input) (self : HUD) (rng : Rng.state)
    (self' : HUD) (rng' : Rng.state) :
  Loop.run self rng inputs = Ok (self', rng') ->
  same_settings self self' /\
  (Forall (fun i => Loop.ret i = true /\ Loop.key i <> 113) inputs ->
   frame_count self' = frame_count self + Z.of_nat (length inputs)).
Proof.
  revert self rng. induction inputs as [|i rest IH]; intros self rng; cbn [Loop.run].
  - intros [= <- <-]. split; [apply same_settings_refl|]. cbn. lia.
  - pose proof (iteration_static self rng i) as Hi.
    destruct (Loop.iteration self rng i) as [o|]; [|done]. cbn [bind].
    destruct (Hi o eq_refl) as (Hs & Hf & Hbreak).
    destruct o as [self1 rng1 frame1|self1 rng1]; cbn in Hs, Hf, Hbreak.
    + intros E. destruct (IH self1 rng1 E) as [Hs' Hf']. split.
      * by eapply same_settings_trans.
      * intros Hall. apply Forall_cons in Hall as [[Hr _] Hall].
        rewrite Hf' by done. rewrite Hf, Hr. cbn [length]. lia.
    + intros [= <- <-]. split; [done|].
      intros Hall. apply Forall_cons in Hall as [[Hr Hk] _].
      destruct Hbreak as [Hb|Hb]; [done|congruence|done].
Qed.

Lemma run_ignores_hands_aux (inputs inputs' : list Loop.Input)
    (self : HUD) (rng : Rng.state) :
  Forall2 same_but_hands inputs inputs' ->
  Forall hands_full inputs -> Forall hands_full inputs' ->
  Loop.run self rng inputs = Loop.run self rng inputs'.
Proof.
  intros H. revert self rng.
  induction H as [|i i' rest rest' Hi _ IH]; intros self rng Hh Hh'; [done|].
  apply Forall_cons in Hh as [Hhi Hh]. apply Forall_cons in Hh' as [Hhi' Hh'].
  cbn [Loop.run].
  pose proof (iteration_ignores_hands self rng i i' Hi Hhi Hhi') as E.
  unfold forget_frame in E.
  destruct (Loop.iteration self rng i) as [o|e],
           (Loop.iteration self rng i') as [o'|e']; cbn [bind] in *; try done.
  - unfold summary in E.
    destruct o, o'; simplify_eq/=; [by apply IH|done].
  - by simplify_eq.
Qed.

(** X6: from a well-formed object (the one [__init__] builds, for
    one), with 21 landmarks for every detected hand and captures of at
    least 250 rows and 470 columns, the loop never raises: it returns the
    object and random source it ends with. *)
Theorem run_never_raises (self : HUD) (rng : Rng.state) (inputs : list Loop.Input) :
  wf self -> Forall hands_full inputs -> Forall roomy inputs ->
  exists self' rng', Loop.run self rng inputs = Ok (self', rng').
Proof. intros W H R. by apply run_ok. Qed.

Lemma run_never_raises_witness :
  exists self' rng',
    Loop.run (init 0 0) (Rng.of_list [])
      [sample_input (1 # 1) (Some [Hand.sample_hand false true true false false]) 109;
       sample_input (2 # 1) None 114] = Ok (self', rng').
Proof.
  apply run_never_raises; [apply wf_init| |].
  - repeat constructor.
  - repeat constructor; cbn; lia.
Defined.

(** X7: whenever the loop returns, the two histories have the same
    length, never above 50, whatever the number of passes. *)
Theorem run_histories_bounded (self : HUD) (rng : Rng.state) (inputs : list Loop.Input)
    (self' : HUD) (rng' : Rng.state) :
  wf self ->
  Loop.run self rng inputs = Ok (self', rng') ->
  length (cpu_history self') = length (memory_history self') /\
  (length (cpu_history self') <= 50)%nat.
Proof.
  intros W E. pose proof (run_wf _ _ _ _ _ W E) as W'. split; apply W'.
Qed.

Lemma run_histories_bounded_witness :
  exists self' rng',
    Loop.run (init 0 0) (Rng.of_list [])
      (replicate 60 (sample_input (1 # 1) None 0)) = Ok (self', rng') /\
    length (cpu_history self') = length (memory_history self') /\
    (length (cpu_history self') <= 50)%nat.
Proof.
  destruct (run_ok (replicate 60 (sample_input (1 # 1) None 0)) (init 0 0)
              (Rng.of_list []) (wf_init 0 0)) as (self' & rng' & E).
  - apply Forall_replicate. exact I.
  - apply Forall_replicate. split; cbn; lia.
  - exists self', rng'. split; [exact E|].
    exact (run_histories_bounded _ _ _ _ _ (wf_init 0 0) E).
Defined.

(** X8: whenever the loop returns, [network_status] is one of
    ONLINE/STABLE/ENCRYPTED/OPTIMAL, [threat_level] one of
    LOW/MEDIUM/HIGH/CRITICAL, and the mode one of the listed modes, whose
    list has not changed. *)
Theorem run_status_known (self : HUD) (rng : Rng.state) (inputs : list Loop.Input)
    (self' : HUD) (rng' : Rng.state) :
  wf self ->
  Loop.run self rng inputs = Ok (self', rng') ->
  network_status (system_status self') ∈ Telemetry.network_stats /\
  threat_level (system_status self') ∈ Telemetry.threat_levels /\
  current_hud_mode self' ∈ hud_modes self /\
  hud_modes self' = hud_modes self.
Proof.
  intros W E. pose proof (run_wf _ _ _ _ _ W E) as W'.
  destruct (run_static _ _ _ _ _ E) as [(Hm & _) _].
  repeat split; try apply W'; [|done].
  rewrite <- Hm. apply W'.
Qed.

Lemma run_status_known_witness :
  exists self' rng',
    Loop.run (init 0 0) (Rng.of_list [0; 2; 0; 3]%N)
      [sample_input (1 # 1) None 109] = Ok (self', rng') /\
    network_status (system_status self') ∈ Telemetry.network_stats /\
    threat_level (system_status self') ∈ Telemetry.threat_levels /\
    current_hud_mode self' ∈ hud_modes (init 0 0) /\
    hud_modes self' = hud_modes (init 0 0).
Proof.
  destruct (run_ok [sample_input (1 # 1) None 109] (init 0 0)
              (Rng.of_list [0; 2; 0; 3]%N) (wf_init 0 0)) as (self' & rng' & E).
  - repeat constructor.
  - repeat constructor; cbn; lia.
  - exists self', rng'. split; [exact E|].
    exact (run_status_known _ _ _ _ _ (wf_init 0 0) E).
Defined.

(** X9: whenever the loop returns, every radar contact has an angle in
    0..360, a distance in 20..80, one of the three affiliations and a
    remaining lifetime in 1..199, and there are at most 8 of them. *)
Theorem run_contacts_in_range (self : HUD) (rng : Rng.state) (inputs : list Loop.Input)
    (self' : HUD) (rng' : Rng.state) :
  wf self ->
  Loop.run self rng inputs = Ok (self', rng') ->
  Forall contact_ok (radar_blips self') /\
  (length (radar_blips self') <= 8)%nat.
Proof.
  intros W E. pose proof (run_wf _ _ _ _ _ W E) as W'. split; apply W'.
Qed.

Lemma run_contacts_in_range_witness :
  exists self' rng',
    Loop.run (init 0 0) (Rng.of_list [])
      (replicate 12 (sample_input (1 # 1) None 0)) = Ok (self', rng') /\
    Forall contact_ok (radar_blips self') /\
    (length (radar_blips self') <= 8)%nat.
Proof.
  destruct (run_ok (replicate 12 (sample_input (1 # 1) None 0)) (init 0 0)
              (Rng.of_list []) (wf_init 0 0)) as (self' & rng' & E).
  - apply Forall_replicate. exact I.
  - apply Forall_replicate. split; cbn; lia.
  - exists self', rng'. split; [exact E|].
    exact (run_contacts_in_range _ _ _ _ _ (wf_init 0 0) E).
Defined.

(** X10: whenever the loop returns, the radar scan angle is in
    [0, 360) and the pulse phase in [0, 2 * math.pi). *)
Theorem run_phases_in_range (self : HUD) (rng : Rng.state) (inputs : list Loop.Input)
    (self' : HUD) (rng' : Rng.state) :
  wf self ->
  Loop.run self rng inputs = Ok (self', rng') ->
  0 <= scan_angle self' < 360 /\
  (0 <= pulse_animation self')%Q /\
  (pulse_animation self' < (2 # 1) * Widgets.math_pi)%Q.
Proof.
  intros W E. pose proof (run_wf _ _ _ _ _ W E) as W'. split; apply W'.
Qed.

Lemma run_phases_in_range_witness :
  exists self' rng',
    Loop.run (init 0 0) (Rng.of_list [])
      (replicate 130 (sample_input (1 # 1) None 0)) = Ok (self', rng') /\
    0 <= scan_angle self' < 360 /\
    (0 <= pulse_animation self')%Q /\
    (pulse_animation self' < (2 # 1) * Widgets.math_pi)%Q.
Proof.
  destruct (run_ok (replicate 130 (sample_input (1 # 1) None 0)) (init 0 0)
              (Rng.of_list []) (wf_init 0 0)) as (self' & rng' & E).
  - apply Forall_replicate. exact I.
  - apply Forall_replicate. split; cbn; lia.
  - exists self', rng'. split; [exact E|].
    exact (run_phases_in_range _ _ _ _ _ (wf_init 0 0) E).
Defined.

(** X11: the loop never assigns the weapon systems, the volume, the
    list of modes, the boot time, the mission status or the neural
    interface: whenever it returns, the object it ends with carries them
    unchanged. *)
Theorem run_settings_untouched (self : HUD) (rng : Rng.state) (inputs : list Loop.Input)
    (self' : HUD) (rng' : Rng.state) :
  Loop.run self rng inputs = Ok (self', rng') ->
  weapon_systems self' = weapon_systems self /\
  current_volume self' = current_volume self /\
  hud_modes self' = hud_modes self /\
  system_boot_time self' = system_boot_time self /\
  mission_status (system_status self') = mission_status (system_status self) /\
  neural_interface (system_status self') = neural_interface (system_status self).
Proof.
  intros E. destruct (run_static _ _ _ _ _ E) as [(?&?&?&?&?&?) _]. by repeat split.
Qed.

Lemma run_settings_untouched_witness :
  exists self' rng',
    Loop.run (init 0 0) (Rng.of_list [])
      [sample_input (1 # 1) (Some [Hand.sample_hand true false false false false]) 0;
       sample_input (2 # 1) (Some [Hand.sample_hand false false false false false]) 0]
      = Ok (self', rng') /\
    weapon_systems self' = weapon_systems (init 0 0) /\
    current_volume self' = current_volume (init 0 0) /\
    hud_modes self' = hud_modes (init 0 0) /\
    system_boot_time self' = system_boot_time (init 0 0) /\
    mission_status (system_status self') = mission_status (system_status (init 0 0)) /\
    neural_interface (system_status self')
    = neural_interface (system_status (init 0 0)).
Proof.
  destruct (run_ok
    [sample_input (1 # 1) (Some [Hand.sample_hand true false false false false]) 0;
     sample_input (2 # 1) (Some [Hand.sample_hand false false false false false]) 0]
    (init 0 0) (Rng.of_list []) (wf_init 0 0)) as (self' & rng' & E).
  - repeat constructor.
  - repeat constructor; cbn; lia.
  - exists self', rng'. split; [exact E|].
    exact (run_settings_untouched _ _ _ _ _ E).
Defined.

(** X12: the detected hands change nothing but the picture: two runs
    whose inputs differ only in the hands (21 landmarks each) end with
    the same object and the same random source.  The classified gesture
    is drawn and then dropped. *)
Theorem run_ignores_hands (self : HUD) (rng : Rng.state)
    (inputs inputs' : list Loop.Input) :
  Forall2 same_but_hands inputs inputs' ->
  Forall hands_full inputs -> Forall hands_full inputs' ->
  Loop.run self rng inputs = Loop.run self rng inputs'.
Proof. apply run_ignores_hands_aux. Qed.

Lemma run_ignores_hands_witness :
  Loop.run (init 0 0) (Rng.of_list [])
    [sample_input (1 # 1) (Some [Hand.sample_hand false false false false false]) 0]
  = Loop.run (init 0 0) (Rng.of_list []) [sample_input (1 # 1) None 0].
Proof.
  apply run_ignores_hands; repeat constructor.
Defined.

(** X13: [frame_count] counts the captured frames: whenever the loop
    returns after passes that all captured a frame and saw no 'q' key, it
    has grown by their number. *)
Theorem run_frame_count (self : HUD) (rng : Rng.state) (inputs : list Loop.Input)
    (self' : HUD) (rng' : Rng.state) :
  Forall (fun i => Loop.ret i = true /\ Loop.key i <> 113) inputs ->
  Loop.run self rng inputs = Ok (self', rng') ->
  frame_count self' = frame_count self + Z.of_nat (length inputs).
Proof. intros Hall E. by apply (run_static _ _ _ _ _ E). Qed.

Lemma run_frame_count_witness :
  exists self' rng',
    Loop.run (init 0 0) (Rng.of_list [])
      (replicate 30 (sample_input (1 # 1) None 114)) = Ok (self', rng') /\
    frame_count self' = frame_count (init 0 0) + Z.of_nat (length
      (replicate 30 (sample_input (1 # 1) None 114))).
Proof.
  destruct (run_ok (replicate 30 (sample_input (1 # 1) None 114)) (init 0 0)
              (Rng.of_list []) (wf_init 0 0)) as (self' & rng' & E).
  - apply Forall_replicate. exact I.
  - apply Forall_replicate. split; cbn; lia.
  - exists self', rng'. split; [exact E|].
    refine (run_frame_count _ _ _ _ _ _ E).
    apply Forall_replicate. split; [reflexivity|discriminate].
Defined.




End LoopFacts.

(** ** Telemetry, radar and vital signs, call by call *)

Section CallFacts.
Import Inv.

(** X14: the histories are queues of at most 50 readings: a tick
    appends the new reading and, once 50 are stored, drops the oldest, so
    the histories are the last 50 readings in order of arrival. *)
Theorem update_system_metrics_fifo (self : HUD) (t now cpu mem : Q) (rng : Rng.state) :
  length (cpu_history self) = length (memory_history self) ->
  (length (cpu_history self) <= 50)%nat ->
  let self' := fst (Telemetry.update_system_metrics self t now cpu mem rng) in
  cpu_history self'
  = drop (length (cpu_history self) + 1 - 50) (cpu_history self ++ [cpu]) /\
  memory_history self'
  = drop (length (memory_history self) + 1 - 50) (memory_history self ++ [mem]) /\
  last (cpu_history self') = Some cpu /\
  last (memory_history self') = Some mem.
Proof.
  intros Hpair Hcap self'.
  destruct (update_system_metrics_histories self t now cpu mem rng) as [Hc Hm].
  fold self' in Hc, Hm. rewrite Hc, Hm. clear Hc Hm self'.
  unfold Telemetry.push, Telemetry.pop0. rewrite <- Hpair.
  destruct (Nat.ltb_spec 50 (length (cpu_history self ++ [cpu]))) as [H|H];
    rewrite length_app in H; cbn [length] in H.
  - replace (length (cpu_history self) + 1 - 50)%nat with 1%nat by lia.
    repeat split; try done.
    + rewrite drop_app_le by lia. apply last_snoc.
    + rewrite drop_app_le by lia. apply last_snoc.
  - replace (length (cpu_history self) + 1 - 50)%nat with 0%nat by lia.
    rewrite !drop_0. repeat split; try done; apply last_snoc.
Qed.

Lemma update_system_metrics_fifo_witness :
  cpu_history (fst (Telemetry.update_system_metrics (init 0 0) 1 1 (25 # 1) (40 # 1)
                      (Rng.of_list [])))
  = drop (length (cpu_history (init 0 0)) + 1 - 50) (cpu_history (init 0 0) ++ [25 # 1]).
Proof.
  refine (proj1 (update_system_metrics_fifo (init 0 0) 1 1 (25 # 1) (40 # 1)
                   (Rng.of_list []) eq_refl _)).
  cbn. lia.
Defined.

(** X16: what one radar draw does to the contacts: after the spawn step,
    every contact's lifetime is lowered by exactly one, the contacts
    whose lifetime is then zero or less are removed, and the others stay
    in their order. *)
Theorem draw_radar_display_ageing (self : HUD) (rng : Rng.state) (frame : Frame) :
  radar_blips (snd (fst (Radar.draw_radar_display self rng frame)))
  = filter (fun b => 0 < lifetime b)
      (map Radar.age (fst (Radar.spawn (radar_blips self) rng))).
Proof.
  rewrite draw_radar_display_blips. by rewrite age_loop_filter by constructor.
Qed.

(** X17: when a spawn happens and what it appends.  A contact is added
    exactly when the first random draw is below 0.1 and fewer than 8
    contacts exist; it is put last, with angle in 0..360, distance in
    20..80, one of the three affiliations and lifetime in 50..200, after
    four more random draws.  Otherwise only that first draw is used. *)
Theorem spawn_cases (blips : list Blip) (rng : Rng.state) :
  if Qltb (fst (Rng.random rng)) (1 # 10) && (length blips <? 8)%nat
  then exists b,
         fst (Radar.spawn blips rng) = blips ++ [b] /\
         0 <= angle b <= 360 /\
         20 <= distance b <= 80 /\
         type b ∈ Radar.blip_types /\
         50 <= lifetime b <= 200 /\
         Rng.cursor (snd (Radar.spawn blips rng)) = (5 + Rng.cursor rng)%nat
  else Radar.spawn blips rng = (blips, snd (Rng.random rng)).
Proof.
  destruct rng as [w c].
  cbv beta iota zeta delta
    [Radar.spawn Rng.random Rng.randint Rng.choice Rng.next Rng.tape Rng.cursor fst snd].
  destruct (Qltb _ _ && _); [|done].
  eexists. split; [reflexivity|]. cbn [angle distance type lifetime].
  change (Radar.radar_size / 2 - 30) with 80.
  repeat split;
    try match goal with
        | |- context [?a mod ?b] => pose proof (Z.mod_pos_bound a b); lia
        end.
  apply list_elem_of_In, nth_In. apply Nat.mod_upper_bound. cbn. lia.
Qed.

Lemma ticks_scan_angle (n : nat) (self : HUD) (rng : Rng.state) (frame : Frame) :
  scan_angle (snd (fst (Radar.ticks (S n) self rng frame)))
  = (scan_angle self + 3 * Z.of_nat (S n)) mod 360.
Proof.
  revert self rng frame. induction n as [|n IH]; intros self rng frame.
  - cbn [Radar.ticks].
    pose proof (draw_radar_display_state self rng frame) as E.
    destruct (Radar.draw_radar_display self rng frame) as [[frame1 self1] rng1].
    cbn [fst snd] in *. by rewrite E.
  - change (Radar.ticks (S (S n)) self rng frame)
      with (let '(f, s, r) := Radar.draw_radar_display self rng frame in
            Radar.ticks (S n) s r f).
    pose proof (draw_radar_display_state self rng frame) as E.
    destruct (Radar.draw_radar_display self rng frame) as [[frame1 self1] rng1].
    cbn [fst snd] in E. rewrite IH, E. cbn [scan_angle set_radar_blips set_scan_angle].
    rewrite Zplus_mod_idemp_l. f_equal. lia.
Qed.

(** X18: the scan line turns 3 degrees per draw and wraps at 360: after
    [n + 1] draws the angle is the start angle plus [3 * (n + 1)], modulo
    360, so 120 draws bring it back to where it was. *)
Theorem scan_angle_period (n : nat) (self : HUD) (rng : Rng.state) (frame : Frame) :
  scan_angle (snd (fst (Radar.ticks (S n) self rng frame)))
  = (scan_angle self + 3 * Z.of_nat (S n)) mod 360 /\
  scan_angle (snd (fst (Radar.ticks 120 self rng frame))) = scan_angle self mod 360.
Proof.
  split; [apply ticks_scan_angle|].
  rewrite (ticks_scan_angle 119).
  change (3 * Z.of_nat 120) with (1 * 360). by rewrite Z_mod_plus_full.
Qed.

(** X19: the figures the vital-signs panel shows: oxygen saturation
    97..99, blood pressure 115..125 over 77..83, temperature digit 5..7,
    neural activity 85..95, cybernetic sync 92..100, adrenaline 15..25;
    the panel takes exactly seven random draws. *)
Theorem vital_draws_ranges (rng : Rng.state) :
  exists o2 sys dia temp neural sync adrenaline,
    fst (Widgets.vital_draws rng) = [o2; sys; dia; temp; neural; sync; adrenaline] /\
    97 <= o2 <= 99 /\ 115 <= sys <= 125 /\ 77 <= dia <= 83 /\ 5 <= temp <= 7 /\
    85 <= neural <= 95 /\ 92 <= sync <= 100 /\ 15 <= adrenaline <= 25 /\
    Rng.cursor (snd (Widgets.vital_draws rng)) = (7 + Rng.cursor rng)%nat.
Proof.
  destruct rng as [w c].
  cbv beta iota zeta delta
    [Widgets.vital_draws Rng.randint Rng.next Rng.tape Rng.cursor fst snd].
  do 7 eexists. split; [reflexivity|].
  repeat split;
    try match goal with
        | |- context [?a mod ?b] => pose proof (Z.mod_pos_bound a b); lia
        end.
Qed.

End CallFacts.

(** ** The mode key *)

Section ModeFacts.

Lemma index_raises (v : string) (seq : list string) :
  v ∉ seq -> Loop.index v seq = Raise ValueError.
Proof.
  induction seq as [|s seq IH]; intros Hn; [done|]. cbn.
  destruct (decide (s = v)) as [->|Hne].
  - exfalso. apply Hn. by left.
  - rewrite IH; [done|]. intros Hin. apply Hn. by right.
Qed.

(** X20: the 'm' key steps forward through COMBAT, STEALTH,
    NAVIGATION, SYSTEM and wraps: COMBAT is followed by STEALTH, STEALTH
    by NAVIGATION, NAVIGATION by SYSTEM and SYSTEM by COMBAT, nothing
    else in the object changing; so from a listed mode four presses
    restore the object exactly. *)
Theorem cycle_mode_round (self : HUD) :
  hud_modes self = ["COMBAT"; "STEALTH"; "NAVIGATION"; "SYSTEM"] ->
  (current_hud_mode self = "COMBAT" ->
   Loop.cycle_mode self = Ok (set_current_hud_mode "STEALTH" self)) /\
  (current_hud_mode self = "STEALTH" ->
   Loop.cycle_mode self = Ok (set_current_hud_mode "NAVIGATION" self)) /\
  (current_hud_mode self = "NAVIGATION" ->
   Loop.cycle_mode self = Ok (set_current_hud_mode "SYSTEM" self)) /\
  (current_hud_mode self = "SYSTEM" ->
   Loop.cycle_mode self = Ok (set_current_hud_mode "COMBAT" self)) /\
  (current_hud_mode self ∈ hud_modes self ->
   exists s1 s2 s3,
     Loop.cycle_mode self = Ok s1 /\
     Loop.cycle_mode s1 = Ok s2 /\
     Loop.cycle_mode s2 = Ok s3 /\
     Loop.cycle_mode s3 = Ok self).
Proof.
  intros Hm. destruct self as [st sc pu bl bt fc hm cm ws cv ch mh].
  cbn in Hm. subst hm. cbn [current_hud_mode hud_modes].
  repeat split; try (by intros ->).
  intros Hin. apply list_elem_of_In in Hin. cbn in Hin.
  destruct Hin as [<-|[<-|[<-|[<-|[]]]]]; by do 3 eexists.
Qed.

Lemma cycle_mode_round_witness :
  Loop.cycle_mode (init 0 0) = Ok (set_current_hud_mode "STEALTH" (init 0 0)).
Proof.
  destruct (cycle_mode_round (init 0 0) eq_refl) as [H _].
  by apply H.
Defined.

(** X21: [cycle_mode] returns exactly when the current mode is in the
    list of modes; otherwise [hud_modes.index] raises [ValueError].  When
    it returns, only [current_hud_mode] has changed, to a listed mode. *)
Theorem cycle_mode_defined (self : HUD) :
  (current_hud_mode self ∈ hud_modes self ->
   exists mode, mode ∈ hud_modes self /\
                Loop.cycle_mode self = Ok (set_current_hud_mode mode self)) /\
  (current_hud_mode self ∉ hud_modes self ->
   Loop.cycle_mode self = Raise ValueError).
Proof.
  split.
  - intros Hin. destruct (cycle_mode_ok self Hin) as (mode & E & Hm). by exists mode.
  - intros Hn. unfold Loop.cycle_mode. by rewrite index_raises.
Qed.

End ModeFacts.

(** ** The progress bar, pixel by pixel *)

Section ProgressBarPixels.
Import Cv2.

Lemma paint_shape (inside : Z -> Z -> bool) (color : Color) (img : Image) :
  length <$> paint inside color img = length <$> img.
Proof.
  unfold paint. apply list_eq. intros i.
  rewrite !list_lookup_fmap, list_lookup_imap.
  destruct (img !! i) as [row|]; cbn [fmap option_fmap option_map]; [|done].
  by rewrite length_imap.
Qed.

Lemma rectangle_shape (img : Image) (pt1 pt2 : Z * Z) (color : Color) (thickness : Z) :
  length <$> rectangle img pt1 pt2 color thickness = length <$> img.
Proof. unfold rectangle. destruct (thickness <? 0); apply paint_shape. Qed.

(** X22: what the bar looks like.  With corners OpenCV accepts, a
    pixel of the buffer ends with the outline colour on the edge of the
    track rectangle, the fill colour inside the rectangle from [x] to
    [x + int(width * progress)] (the product rounded to a double), the
    dark track colour in the rest of the track, and its old colour
    elsewhere; positions outside the buffer stay outside. *)
Theorem progress_bar_pixels (frame : Image) (x y width height : Z) (progress : Q)
    (px py : Z) :
  coordinate x -> coordinate y ->
  coordinate (x + width) -> coordinate (y + height) ->
  coordinate (x + fill_width width progress) ->
  pixel (draw_progress_bar frame (x, y) width height progress) px py
  = match pixel frame px py with
    | None => None
    | Some old =>
        Some (if on_edge (x, y) (x + width, y + height) px py then (0, 150, 0)
              else if in_box (x, y) (x + fill_width width progress, y + height) px py
                   then (0, 255, 0)
              else if in_box (x, y) (x + width, y + height) px py then (0, 30, 0)
              else old)
    end.
Proof.
  intros _ _ _ _ _. rewrite pixel_draw_progress_bar. by destruct (pixel frame px py).
Qed.

Lemma progress_bar_pixels_witness :
  pixel (draw_progress_bar (zeros 180 450) (120, 50) 200 8 (15 # 1000)) 123 54
  = Some (0, 255, 0).
Proof.
  rewrite (progress_bar_pixels (zeros 180 450) 120 50 200 8 (15 # 1000) 123 54);
    by vm_compute.
Defined.

Lemma draw_progress_bar_shape (frame : Image) (position : Z * Z) (width height : Z)
    (progress : Q) :
  length <$> draw_progress_bar frame position width height progress = length <$> frame.
Proof.
  destruct position as [x y]. unfold draw_progress_bar.
  by rewrite !rectangle_shape.
Qed.

(** X23: drawing a bar never changes the size of the buffer: the number
    of rows and the length of every row stay the same. *)
Theorem progress_bar_shape (frame : Image) (position : Z * Z) (width height : Z)
    (progress : Q) :
  length <$> draw_progress_bar frame position width height progress = length <$> frame.
Proof. apply draw_progress_bar_shape. Qed.

(** X24: the fill grows with the fraction: for a non-negative width and
    [0 <= p <= q], every pixel that has the fill colour after drawing the
    bar for [p] also has it after drawing the bar for [q]. *)
Theorem progress_bar_monotone (frame : Image) (x y width height : Z) (p q : Q)
    (px py : Z) :
  0 <= width -> (0 <= p)%Q -> (p <= q)%Q ->
  pixel (draw_progress_bar frame (x, y) width height p) px py = Some (0, 255, 0) ->
  pixel (draw_progress_bar frame (x, y) width height q) px py = Some (0, 255, 0).
Proof.
  intros Hw Hp Hpq. rewrite !pixel_draw_progress_bar.
  pose proof (fill_width_nonneg width p Hw Hp) as H0.
  pose proof (fill_width_mono width p q Hw Hpq) as Hle.
  destruct (pixel frame px py) as [old|]; cbn [fmap option_fmap option_map]; [|done].
  destruct (on_edge _ _ px py); [done|].
  destruct (in_box (x, y) (x + fill_width width p, y + height) px py) eqn:Ep.
  - intros _.
    assert (in_box (x, y) (x + fill_width width q, y + height) px py = true) as ->;
      [|done].
    unfold in_box in *. cbn [fst snd] in *. lia.
  - destruct (in_box (x, y) (x + width, y + height) px py); [done|].
    intros [= ->].
    by destruct (in_box (x, y) (x + fill_width width q, y + height) px py).
Qed.

Lemma progress_bar_monotone_witness :
  pixel (draw_progress_bar (zeros 180 450) (120, 50) 200 8 (3 # 4)) 200 54
  = Some (0, 255, 0).
Proof.
  apply (progress_bar_monotone (zeros 180 450) 120 50 200 8 (1 # 2) (3 # 4) 200 54);
    [lia | by vm_compute | by vm_compute |].
  rewrite pixel_draw_progress_bar. by vm_compute.
Defined.

(** X15: the three bars of the status panel stay inside their
    tracks.  With CPU and memory figures in 0..100 and a battery level in
    0..100, each fill ends between 0 and 200 pixels from the left end of
    its track, and drawing the three bars changes no pixel of the panel
    outside the three track rectangles, nor the size of the panel. *)
Theorem status_bars_inside_tracks (panel : Image) (st : SystemStatus) :
  (0 <= cpu_usage st <= 100 # 1)%Q ->
  (0 <= memory_usage st <= 100 # 1)%Q ->
  0 <= battery_level st <= 100 ->
  (0 <= fill_width 200 (double (cpu_usage st / (100 # 1))) <= 200 /\
   0 <= fill_width 200 (double (memory_usage st / (100 # 1))) <= 200 /\
   0 <= fill_width 200 (double (inject_Z (battery_level st) / (100 # 1))) <= 200) /\
  length <$> Widgets.draw_bars panel st = length <$> panel /\
  forall px py,
    in_box (120, 50) (120 + 200, 50 + 8) px py = false ->
    in_box (120, 68) (120 + 200, 68 + 8) px py = false ->
    in_box (120, 86) (120 + 200, 86 + 8) px py = false ->
    pixel (Widgets.draw_bars panel st) px py = pixel panel px py.
Proof.
  intros Hc Hm Hb.
  assert (forall q, (0 <= q <= 100 # 1)%Q ->
            0 <= fill_width 200 (double (q / (100 # 1))) <= 200) as Hfill.
  { intros q Hq. apply fill_width_bounds; [by vm_compute|].
    apply double_unit_interval. unfold Qdiv.
    change (/ (100 # 1))%Q with (1 # 100). lra. }
  assert (0 <= inject_Z (battery_level st) <= 100 # 1)%Q as Hb'.
  { change (100 # 1) with (inject_Z 100). change 0%Q with (inject_Z 0).
    rewrite <- !Zle_Qle. lia. }
  split; [by auto|]. unfold Widgets.draw_bars. split.
  - by rewrite !draw_progress_bar_shape.
  - intros px py H1 H2 H3.
    rewrite (progress_bar_outside_track _ 120 86 200 8) by (by auto).
    rewrite (progress_bar_outside_track _ 120 68 200 8) by (by auto).
    by rewrite (progress_bar_outside_track _ 120 50 200 8) by (by auto).
Qed.

Lemma status_bars_inside_tracks_witness :
  0 <= fill_width 200 (double (inject_Z 29 / (100 # 1))) <= 200 /\
  pixel (Widgets.draw_bars (zeros 180 450)
           {| cpu_usage := 25 # 1; memory_usage := 40 # 1;
              network_status := "ONLINE"; threat_level := "LOW";
              battery_level := 29; system_time := 0;
              mission_status := "ACTIVE"; neural_interface := "SYNCED" |}) 400 90
  = pixel (zeros 180 450) 400 90.
Proof.
  destruct (status_bars_inside_tracks (zeros 180 450)
    {| cpu_usage := 25 # 1; memory_usage := 40 # 1;
       network_status := "ONLINE"; threat_level := "LOW";
       battery_level := 29; system_time := 0;
       mission_status := "ACTIVE"; neural_interface := "SYNCED" |})
    as ((_ & _ & Hb) & _ & Hout); [by vm_compute .. |].
  split; [exact Hb | by apply Hout].
Defined.

(** At battery level 29 the quotient [29 / 100] and the product by 200
    round to a value below 58: the fill is 57 pixels wide. *)
Example fill_width_battery_29 :
  fill_width 200 (double (inject_Z 29 / (100 # 1))) = 57.
Proof. by vm_compute. Qed.

End ProgressBarPixels.

(** ** The scan-line effect *)

Section ScanLines.
Import Cv2 Post.

Lemma dim_range (v : Z) : 0 <= v <= 255 -> 0 <= dim v <= 204 /\ dim v <= v.
Proof.
  intros Hv. unfold dim.
  assert (inject_Z v * (8 # 10) == (4 * v) # 5)%Q as E.
  { unfold Qeq, Qmult, inject_Z. cbn. lia. }
  rewrite (int_proper _ _ E). unfold int. cbn [Qnum Qden].
  change (QDen ((4 * v) # 5)) with 5.
  rewrite Z.quot_div_nonneg by lia.
  pose proof (Z.div_le_upper_bound (4 * v) 5 204 ltac:(lia) ltac:(lia)).
  pose proof (Z.div_pos (4 * v) 5 ltac:(lia) ltac:(lia)).
  pose proof (Z.div_le_upper_bound (4 * v) 5 v ltac:(lia) ltac:(lia)).
  lia.
Qed.

(** X25: the scan-line effect touches only rows 0, 4, 8, ...: there
    each channel [v] becomes [int(v * 0.8)], which for a byte value is in
    0..204 and never above [v]; all other rows, and the size of the
    frame, are unchanged. *)
Theorem scanlines_pixels (frame : Image) (px py : Z) :
  pixel (scanlines frame) px py
  = (if py mod 4 =? 0 then dim_pixel <$> pixel frame px py else pixel frame px py) /\
  length <$> scanlines frame = length <$> frame /\
  (forall v, 0 <= v <= 255 -> 0 <= dim v <= 204 /\ dim v <= v).
Proof.
  split; [|split; [|apply dim_range]].
  - unfold pixel, scanlines.
    destruct ((px <? 0) || (py <? 0)) eqn:E; [by destruct (py mod 4 =? 0)|].
    apply orb_false_iff in E as [Hx Hy]. apply Z.ltb_ge in Hx, Hy.
    rewrite list_lookup_imap.
    assert ((Z.to_nat py mod 4 =? 0)%nat = (py mod 4 =? 0)) as ->.
    { rewrite <- (Z2Nat.id py) at 2 by done.
      change 4 with (Z.of_nat 4). rewrite <- Nat2Z.inj_mod.
      destruct (Nat.eqb_spec (Z.to_nat py mod 4) 0) as [H|H];
        destruct (Z.eqb_spec (Z.of_nat (Z.to_nat py mod 4)) 0); lia. }
    destruct (frame !! Z.to_nat py) as [row|]; cbn [fmap option_fmap option_map];
      destruct (py mod 4 =? 0); try done.
    by rewrite list_lookup_fmap.
  - unfold scanlines. apply list_eq. intros i.
    rewrite !list_lookup_fmap, list_lookup_imap.
    destruct (frame !! i) as [row|]; cbn [fmap option_fmap option_map]; [|done].
    destruct (i mod 4 =? 0)%nat; [|done]. by rewrite length_fmap.
Qed.

End ScanLines.

(** ** Speech *)

Section AudioFacts.
Import Audio.

Lemma speak_all_no_engine (last : option Q) (calls : list (Q * bool * Q)) :
  speak_all {| tts_engine := false; last_audio_time := last |} calls
  = Some ([], {| tts_engine := false; last_audio_time := last |}).
Proof.
  induction calls as [|[[t1 ok] t2] rest IH]; [done|].
  cbn [speak_all speak tts_engine]. by rewrite IH.
Qed.

Lemma speak_all_engine (last : Q) (calls : list (Q * bool * Q)) :
  exists made final,
    speak_all {| tts_engine := true; last_audio_time := Some last |} calls
    = Some (made, final) /\
    spaced last made /\ tts_engine final = true.
Proof.
  revert last. induction calls as [|[[t1 ok] t2] rest IH]; intros last.
  - by exists [], {| tts_engine := true; last_audio_time := Some last |}.
  - cbn [speak_all speak tts_engine last_audio_time].
    destruct (Qltb (2 # 1) (t1 - last)) eqn:E; [destruct ok|].
    + destruct (IH t2) as (made & final & -> & Hs & Hf).
      exists ((t1, t2) :: made), final. repeat split; try done. by apply Qltb_lt.
    + destruct (IH last) as (made & final & -> & Hs & Hf). by exists made, final.
    + destruct (IH last) as (made & final & -> & Hs & Hf). by exists made, final.
Qed.

(** X26: speech is safe and rate-limited.  However [setup_audio_feedback]
    went, no later [speak] call raises: the timestamp is read only when an
    engine exists, and then it has been assigned.  An utterance is made
    only more than two seconds after the time stored by the previous one
    (0 before the first), and none at all without an engine. *)
Theorem speak_all_safe (init_ok rate_ok volume_ok : bool) (calls : list (Q * bool * Q)) :
  exists made final,
    speak_all (setup_audio_feedback init_ok rate_ok volume_ok) calls
    = Some (made, final) /\
    spaced 0 made /\
    (init_ok && rate_ok && volume_ok = false -> made = []).
Proof.
  unfold setup_audio_feedback. destruct (init_ok && rate_ok && volume_ok).
  - destruct (speak_all_engine 0 calls) as (made & final & E & Hs & _).
    by exists made, final.
  - rewrite speak_all_no_engine. by do 2 eexists.
Qed.

End AudioFacts.

(** ** Where things are drawn *)

Section RenderFacts.
Import Inv Render.
Variables math_cos math_sin : Q -> Q.
Hypothesis cos_range : forall a, (-1 <= math_cos a)%Q /\ (math_cos a <= 1)%Q.
Hypothesis sin_range : forall a, (-1 <= math_sin a)%Q /\ (math_sin a <= 1)%Q.

Lemma int_scaled (k : Z) (v : Q) :
  0 <= k -> (-1 <= v)%Q -> (v <= 1)%Q -> - k <= int (inject_Z k * v) <= k.
Proof.
  intros Hk Hlo Hhi.
  assert (0 <= inject_Z k)%Q as Hq
    by (change 0%Q with (inject_Z 0); by rewrite <- Zle_Qle).
  apply int_between; rewrite ?inject_Z_opp; nra.
Qed.

(** X27: a contact at a distance in 20..80, as every spawn produces,
    is drawn inside the radar panel whatever its angle and lifetime: the
    centre of its dot lies in 30..190 on both axes of the 220x220 panel,
    so the dot of radius 4 is wholly inside; the scan line ends in
    15..205. *)
Theorem radar_drawn_inside_panel (blip : Blip) (scan : Z) :
  20 <= distance blip <= 80 ->
  30 <= fst (blip_xy math_cos math_sin blip) <= 190 /\
  30 <= snd (blip_xy math_cos math_sin blip) <= 190 /\
  15 <= fst (scan_end math_cos math_sin scan) <= 205 /\
  15 <= snd (scan_end math_cos math_sin scan) <= 205.
Proof.
  intros Hd. unfold blip_xy, scan_end. cbn [fst snd].
  change (Radar.radar_size / 2 - 15) with 95. change (Radar.radar_size / 2) with 110.
  pose proof (int_scaled (distance blip)
    (math_cos (radians (inject_Z (angle blip)))) ltac:(lia)
    (proj1 (cos_range _)) (proj2 (cos_range _))).
  pose proof (int_scaled (distance blip)
    (math_sin (radians (inject_Z (angle blip)))) ltac:(lia)
    (proj1 (sin_range _)) (proj2 (sin_range _))).
  pose proof (int_scaled 95 (math_cos (radians (inject_Z scan))) ltac:(lia)
    (proj1 (cos_range _)) (proj2 (cos_range _))).
  pose proof (int_scaled 95 (math_sin (radians (inject_Z scan))) ltac:(lia)
    (proj1 (sin_range _)) (proj2 (sin_range _))).
  lia.
Qed.

(** X28: the vital-signs panel shows a heart rate in 64..80, and its
    waveform has 75 points, all inside the 160x320 panel: x in 10..306 and
    y in 128..152. *)
Theorem vital_signs_drawn_inside_panel (pulse : Q) :
  64 <= heart_rate math_sin pulse <= 80 /\
  length (waveform math_sin pulse) = 75%nat /\
  Forall (fun pt => 10 <= fst pt <= 306 /\ 128 <= snd pt <= 152)
         (waveform math_sin pulse).
Proof.
  split; [|split].
  - unfold heart_rate. change (8 # 1) with (inject_Z 8).
    pose proof (int_scaled 8 (math_sin pulse) ltac:(lia)
      (proj1 (sin_range _)) (proj2 (sin_range _))). lia.
  - unfold waveform. by rewrite length_map, length_seq.
  - unfold waveform. apply Forall_forall. intros pt Hpt.
    apply list_elem_of_In, in_map_iff in Hpt as (k & <- & Hk).
    apply in_seq in Hk. cbn [fst snd]. change (12 # 1) with (inject_Z 12).
    pose proof (int_scaled 12
      (math_sin (inject_Z (4 * Z.of_nat k) * (5 # 100) + pulse)) ltac:(lia)
      (proj1 (sin_range _)) (proj2 (sin_range _))). lia.
Qed.

(** X29: the green channel of the status panel's pulsing header is a
    valid byte, between 100 and 255, for every frame count. *)
Theorem header_color_byte (frame_count : Z) :
  exists g, header_color math_sin frame_count = (0, g, 0) /\ 100 <= g <= 255.
Proof.
  unfold header_color. eexists. split; [reflexivity|].
  destruct (sin_range (inject_Z frame_count * (1 # 10))) as [Hlo Hhi].
  apply int_between.
  - change (inject_Z 100) with (100 # 1). unfold Qdiv.
    change (/ (2 # 1))%Q with (1 # 2). nra.
  - change (inject_Z 255) with (255 # 1). unfold Qdiv.
    change (/ (2 # 1))%Q with (1 # 2). nra.
Qed.

End RenderFacts.

Lemma radar_drawn_inside_panel_witness :
  30 <= fst (Render.blip_xy (fun _ => 3 # 5) (fun _ => 4 # 5)
               {| angle := 53; distance := 80; type := "hostile"; lifetime := 120 |})
     <= 190.
Proof.
  refine (proj1 (radar_drawn_inside_panel (fun _ => 3 # 5) (fun _ => 4 # 5) _ _
    {| angle := 53; distance := 80; type := "hostile"; lifetime := 120 |} 0 _)).
  - intros _. split; by vm_compute.
  - intros _. split; by vm_compute.
  - cbn. lia.
Defined.

Lemma vital_signs_drawn_inside_panel_witness :
  64 <= Render.heart_rate (fun _ => (- (1 # 2))%Q) 0 <= 80.
Proof.
  refine (proj1 (vital_signs_drawn_inside_panel (fun _ => (- (1 # 2))%Q) _ 0)).
  intros _. split; by vm_compute.
Defined.

Lemma header_color_byte_witness :
  exists g, Render.header_color (fun _ => 1%Q) 7 = (0, g, 0) /\ 100 <= g <= 255.
Proof.
  apply (header_color_byte (fun _ => 1%Q)).
  intros _. split; by vm_compute.
Defined.
